(** * Analista de RNC: request normalisation and prompt construction

    A shallow embedding of the two request handlers of the repository,
    [src/main.py] (hosted backend, Groq) and [src/old/main.py] (local
    backend, Ollama), and the properties of their request/prompt contract.
    A third file, [src/old/main_oldv1.py], is an earlier copy of the hosted
    handler with a shorter prompt; the statements below are about the two
    files named first.

    Python values are modelled as follows.
    - [str] is a list of Unicode code points ([pystr]); source literals are
      written as Rocq strings (UTF-8 bytes) and decoded by [py].
    - [int] is [Z]; [len] of a list is a [nat].
    - Values that travel through [json.dumps] or arrive in a request body
      are the tagged union [value]; a [dict] is an insertion-ordered
      association list.
    - The remote generation service and [json.loads] are parameters of the
      handlers; a handler returns the list of events it performed (log
      lines, remote calls) together with its response. *)

From Stdlib Require Import String Ascii DecimalString DecimalNat DecimalZ.
From Stdlib Require Import List NArith ZArith Bool Lia.
Import ListNotations.

Set Warnings "-register-all".

(* ------------------------------------------------------------------ *)
(** ** Python strings *)

Module PyStr.

(** A code point. *)
Definition char := N.
Definition pystr := list char.

(** UTF-8 decoding of a source literal. *)
Fixpoint utf8_decode (bs : list N) : pystr :=
  match bs with
  | [] => []
  | b :: t =>
    if (b <? 128)%N then b :: utf8_decode t
    else match t with
    | [] => []
    | b1 :: t1 =>
      if (b <? 224)%N then
        (N.lor (N.shiftl (N.land b 31) 6) (N.land b1 63)) :: utf8_decode t1
      else match t1 with
      | [] => []
      | b2 :: t2 =>
        if (b <? 240)%N then
          (N.lor (N.shiftl (N.land b 15) 12)
             (N.lor (N.shiftl (N.land b1 63) 6) (N.land b2 63)))
            :: utf8_decode t2
        else match t2 with
        | [] => []
        | b3 :: t3 =>
          (N.lor (N.shiftl (N.land b 7) 18)
             (N.lor (N.shiftl (N.land b1 63) 12)
                (N.lor (N.shiftl (N.land b2 63) 6) (N.land b3 63))))
            :: utf8_decode t3
        end
      end
    end
  end.

Definition bytes_of_string (s : string) : list N :=
  map N_of_ascii (list_ascii_of_string s).

(** [py "literal"] is the [str] object denoted by a source literal. *)
Definition py (s : string) : pystr := utf8_decode (bytes_of_string s).

Definition dq : pystr := [34%N].   (* the double quote *)
Definition nl : pystr := [10%N].   (* the line feed *)
Definition bsl : char := 92%N.     (* the backslash *)

(** [q "x"] is the literal text ["x"] with its double quotes. *)
Definition q (s : string) : pystr := dq ++ py s ++ dq.

(** [a == b] *)
Fixpoint eqb (a b : pystr) : bool :=
  match a, b with
  | [], [] => true
  | x :: a', y :: b' => (x =? y)%N && eqb a' b'
  | _, _ => false
  end.

(** [str.isspace] on one code point (CPython [_PyUnicode_IsWhitespace]). *)
Definition isspace (c : char) : bool :=
  ((9 <=? c) && (c <=? 13) || (28 <=? c) && (c <=? 32)
   || (c =? 133) || (c =? 160) || (c =? 5760)
   || (8192 <=? c) && (c <=? 8202)
   || (c =? 8232) || (c =? 8233) || (c =? 8239) || (c =? 8287)
   || (c =? 12288))%N.

Fixpoint lstrip (s : pystr) : pystr :=
  match s with
  | [] => []
  | c :: t => if isspace c then lstrip t else s
  end.

Definition rstrip (s : pystr) : pystr := rev (lstrip (rev s)).

(** [s.strip()] with no argument. *)
Definition strip (s : pystr) : pystr := rstrip (lstrip s).

(** [str(n)] for a non-negative length and for an [int]. *)
Definition str_nat (n : nat) : pystr :=
  bytes_of_string (NilEmpty.string_of_uint (Nat.to_uint n)).

Definition str_int (z : Z) : pystr :=
  bytes_of_string (NilEmpty.string_of_int (Z.to_int z)).

(** [sep.join(xs)]. *)
Fixpoint join (sep : pystr) (xs : list pystr) : pystr :=
  match xs with
  | [] => []
  | [x] => x
  | x :: t => x ++ sep ++ join sep t
  end.

(** [x in s] for strings: [x] occurs in [s] as a contiguous run. *)
Definition Infix (x s : pystr) : Prop :=
  exists pre post, s = pre ++ x ++ post.

Fixpoint prefixb (x s : pystr) : bool :=
  match x, s with
  | [], _ => true
  | a :: x', b :: s' => (a =? b)%N && prefixb x' s'
  | _ :: _, [] => false
  end.

Fixpoint infixb (x s : pystr) : bool :=
  prefixb x s ||
  match s with
  | [] => false
  | _ :: s' => infixb x s'
  end.

End PyStr.
Import PyStr.

(* ------------------------------------------------------------------ *)
(** ** Results, floats *)

(** The outcome of a computation that may raise: [Err e] carries what the
    exception carries. *)
Inductive result (E A : Type) : Type :=
| Ok (a : A)
| Err (e : E).
Arguments Ok {E A} a.
Arguments Err {E A} e.

(** A [float] given by a decimal source literal, [FloatLit n d] for n/d. *)
Inductive pyfloat := FloatLit (num : Z) (den : positive).

(* ------------------------------------------------------------------ *)
(** ** JSON values and [json.dumps] *)

Module Json.

(** The Python objects that reach [json.dumps] or come out of a parsed
    request body.  Numbers with a fraction or an exponent are left out. *)
Inductive value : Type :=
| VNone
| VBool (b : bool)
| VInt (z : Z)
| VStr (s : pystr)
| VList (l : list value)
| VDict (d : list (pystr * value)).

Definition dict := list (pystr * value).

(** [d.get(k)]. *)
Fixpoint dict_get (k : pystr) (d : dict) : option value :=
  match d with
  | [] => None
  | (k', v) :: t => if PyStr.eqb k k' then Some v else dict_get k t
  end.

Definition hexdigit (n : N) : char :=
  if (n <? 10)%N then (48 + n)%N else (87 + n)%N.

(** ['\\u{0:04x}'.format(n)] *)
Definition u_escape (n : N) : pystr :=
  [bsl; 117%N;
   hexdigit (N.land (N.shiftr n 12) 15); hexdigit (N.land (N.shiftr n 8) 15);
   hexdigit (N.land (N.shiftr n 4) 15); hexdigit (N.land n 15)].

(** [ESCAPE_ASCII] keeps the printable ASCII characters other than the
    backslash and the double quote. *)
Definition plain (c : char) : bool :=
  ((32 <=? c) && (c <=? 126) && negb (c =? 92) && negb (c =? 34))%N.

(** The [replace] callback of [json.encoder.py_encode_basestring_ascii]. *)
Definition escape_char (c : char) : pystr :=
  if plain c then [c]
  else if (c =? 92)%N then [bsl; bsl]
  else if (c =? 34)%N then [bsl; 34%N]
  else if (c =? 8)%N then [bsl; 98%N]
  else if (c =? 12)%N then [bsl; 102%N]
  else if (c =? 10)%N then [bsl; 110%N]
  else if (c =? 13)%N then [bsl; 114%N]
  else if (c =? 9)%N then [bsl; 116%N]
  else if (c <? 65536)%N then u_escape c
  else
    let n := (c - 65536)%N in
    let s1 := N.lor 55296 (N.land (N.shiftr n 10) 1023) in
    let s2 := N.lor 56320 (N.land n 1023) in
    u_escape s1 ++ u_escape s2.

Definition py_encode_basestring_ascii (s : pystr) : pystr :=
  dq ++ flat_map escape_char s ++ dq.

(** A Unicode scalar value: a code point below 0x110000 that is not a
    surrogate. *)
Definition scalar (c : char) : bool :=
  ((c <? 55296) || (57343 <? c) && (c <? 1114112))%N.

Definition unhexdigit (c : char) : N :=
  if (c <? 58)%N then (c - 48)%N else (c - 87)%N.

Definition unhex4 (a b c d : char) : N :=
  (4096 * unhexdigit a + 256 * unhexdigit b + 16 * unhexdigit c
   + unhexdigit d)%N.

(** Reading one character back from the inside of an encoded string,
    the way [json.decoder.py_scanstring] does: [None] at the closing
    quote or at a broken escape, otherwise the character and the rest.
    It serves to state that the encoding loses nothing. *)
Definition unescape_head (s : pystr) : option (char * pystr) :=
  match s with
  | [] => None
  | c :: t =>
    if (c =? 34)%N then None
    else if negb (c =? 92)%N then Some (c, t)
    else
      match t with
      | [] => None
      | k :: t1 =>
        if (k =? 117)%N then
          match t1 with
          | h3 :: h2 :: h1 :: h0 :: t2 =>
            let n := unhex4 h3 h2 h1 h0 in
            if ((55296 <=? n) && (n <=? 56319))%N then
              match t2 with
              | b :: u :: l3 :: l2 :: l1 :: l0 :: t3 =>
                let n2 := unhex4 l3 l2 l1 l0 in
                if ((b =? 92) && (u =? 117)
                    && (56320 <=? n2) && (n2 <=? 57343))%N
                then Some ((65536 + (n - 55296) * 1024 + (n2 - 56320))%N, t3)
                else Some (n, t2)
              | _ => Some (n, t2)
              end
            else Some (n, t2)
          | _ => None
          end
        else if (k =? 92)%N then Some (92%N, t1)
        else if (k =? 34)%N then Some (34%N, t1)
        else if (k =? 98)%N then Some (8%N, t1)
        else if (k =? 102)%N then Some (12%N, t1)
        else if (k =? 110)%N then Some (10%N, t1)
        else if (k =? 114)%N then Some (13%N, t1)
        else if (k =? 116)%N then Some (9%N, t1)
        else None
      end
  end.

(** [_indent * _current_indent_level] *)
Definition indentation (_indent : pystr) (level : nat) : pystr :=
  concat (repeat _indent level).

(** [json.encoder._make_iterencode] with an indent: item separator [","],
    key separator [": "], a line break and the indentation before every
    item, [ensure_ascii] left at its default. *)
Fixpoint _iterencode (_indent : pystr) (level : nat) (o : value) : pystr :=
  match o with
  | VNone => py "null"
  | VBool true => py "true"
  | VBool false => py "false"
  | VInt z => str_int z
  | VStr s => py_encode_basestring_ascii s
  | VList [] => py "[]"
  | VList lst =>
    let newline_indent := nl ++ indentation _indent (S level) in
    let separator := py "," ++ newline_indent in
    py "[" ++ newline_indent
      ++ join separator (map (_iterencode _indent (S level)) lst)
      ++ nl ++ indentation _indent level ++ py "]"
  | VDict [] => py "{}"
  | VDict dct =>
    let newline_indent := nl ++ indentation _indent (S level) in
    let item_separator := py "," ++ newline_indent in
    py "{" ++ newline_indent
      ++ join item_separator
           (map (fun kv : pystr * value =>
                   let (key, v) := kv in
                   py_encode_basestring_ascii key ++ py ": "
                     ++ _iterencode _indent (S level) v) dct)
      ++ nl ++ indentation _indent level ++ py "}"
  end.

(** [json.dumps(obj, indent=indent)] *)
Definition json_dumps (obj : value) (indent : nat) : pystr :=
  _iterencode (repeat 32%N indent) 0 obj.

End Json.
Import Json.

(* ------------------------------------------------------------------ *)
(** ** The request models ([class Rnc], [class RequisicaoAnalista]) *)

Module Models.

(** [class Rnc(BaseModel)]: eleven required [str] fields and the
    optional [CONCLUSAO], in declaration order. *)
Record Rnc : Type := {
  RNC : pystr;
  ANO : pystr;
  PRIORIDADE : pystr;
  COD_PRODUTO : pystr;
  CLASSIFICACAO : pystr;
  DESCRICAO : pystr;
  ORIGEM : pystr;
  CLIENTE : pystr;
  STATUS : pystr;
  REGISTRO : pystr;
  CONCLUSAO : option pystr;
  DEPARTAMENTO_DESTINO : pystr
}.

(** [class RequisicaoAnalista(BaseModel)] *)
Record RequisicaoAnalista : Type := { dados_rnc : list Rnc }.

(** The names of the fields declared [str]. *)
Definition required_fields : list pystr :=
  [py "RNC"; py "ANO"; py "PRIORIDADE"; py "COD_PRODUTO";
   py "CLASSIFICACAO"; py "DESCRICAO"; py "ORIGEM"; py "CLIENTE";
   py "STATUS"; py "REGISTRO"; py "DEPARTAMENTO_DESTINO"].

(** The names of all the fields, in declaration order. *)
Definition field_names : list pystr :=
  [py "RNC"; py "ANO"; py "PRIORIDADE"; py "COD_PRODUTO";
   py "CLASSIFICACAO"; py "DESCRICAO"; py "ORIGEM"; py "CLIENTE";
   py "STATUS"; py "REGISTRO"; py "CONCLUSAO"; py "DEPARTAMENTO_DESTINO"].

(** The text values of a record are strings of Unicode scalar values:
    they hold no surrogate code point, which a body can only spell with
    an escape. *)
Definition Rnc_scalar (item : Rnc) : bool :=
  forallb (forallb scalar)
    [RNC item; ANO item; PRIORIDADE item; COD_PRODUTO item;
     CLASSIFICACAO item; DESCRICAO item; ORIGEM item; CLIENTE item;
     STATUS item; REGISTRO item;
     match CONCLUSAO item with Some s => s | None => [] end;
     DEPARTAMENTO_DESTINO item].

(** The values [model_dump] puts in a record: texts of scalar values,
    and [None]. *)
Definition dumped_value (v : value) : Prop :=
  match v with
  | VStr s => forallb scalar s = true
  | VNone => True
  | _ => False
  end.

(** [Rnc.trim_string], the [mode='before'] validator of every field. *)
Definition trim_string (v : value) : value :=
  match v with
  | VStr s => VStr (strip s)
  | _ => v
  end.

(** [item.model_dump()]: the fields in declaration order. *)
Definition model_dump (item : Rnc) : value :=
  VDict
    [(py "RNC", VStr (RNC item));
     (py "ANO", VStr (ANO item));
     (py "PRIORIDADE", VStr (PRIORIDADE item));
     (py "COD_PRODUTO", VStr (COD_PRODUTO item));
     (py "CLASSIFICACAO", VStr (CLASSIFICACAO item));
     (py "DESCRICAO", VStr (DESCRICAO item));
     (py "ORIGEM", VStr (ORIGEM item));
     (py "CLIENTE", VStr (CLIENTE item));
     (py "STATUS", VStr (STATUS item));
     (py "REGISTRO", VStr (REGISTRO item));
     (py "CONCLUSAO",
      match CONCLUSAO item with Some s => VStr s | None => VNone end);
     (py "DEPARTAMENTO_DESTINO", VStr (DEPARTAMENTO_DESTINO item))].

(** *** Validation of a parsed request body

    The models are pydantic (v2) models fed from a parsed JSON body: a
    [str] field accepts a string only, a missing required field and a
    value of the wrong type are reported with the path of the field,
    and the errors of all fields and all records are collected. *)

Inductive loc_item : Type :=
| LocKey (k : pystr)
| LocIndex (i : nat).

Inductive error_type : Type :=
| missing
| string_type
| list_type
| model_attributes_type.

Record error_details : Type := { loc : list loc_item; type : error_type }.

Definition validated (A : Type) : Type := result (list error_details) A.

(** The validation failed and [e] is among its errors. *)
Definition reports {A : Type} (x : validated A) (e : error_details) : Prop :=
  match x with
  | Err es => In e es
  | Ok _ => False
  end.

(** Validation of the next field: both sides are run, errors add up. *)
Definition ap {A B : Type} (f : validated (A -> B)) (x : validated A)
  : validated B :=
  match f, x with
  | Ok g, Ok a => Ok (g a)
  | Ok _, Err e => Err e
  | Err e, Ok _ => Err e
  | Err e1, Err e2 => Err (e1 ++ e2)
  end.

(** Errors found below a path item are reported under it. *)
Definition under {A : Type} (l : loc_item) (x : validated A) : validated A :=
  match x with
  | Ok a => Ok a
  | Err es =>
    Err (map (fun e => {| loc := l :: loc e; type := type e |}) es)
  end.

(** A field declared [name: str]. *)
Definition str_field (name : pystr) (d : dict) : validated pystr :=
  match dict_get name d with
  | None => Err [{| loc := [LocKey name]; type := missing |}]
  | Some v =>
    match trim_string v with
    | VStr s => Ok s
    | _ => Err [{| loc := [LocKey name]; type := string_type |}]
    end
  end.

(** A field declared [name: Optional[str] = None]; the default is not
    validated. *)
Definition optional_str_field (name : pystr) (d : dict)
  : validated (option pystr) :=
  match dict_get name d with
  | None => Ok None
  | Some v =>
    match trim_string v with
    | VStr s => Ok (Some s)
    | VNone => Ok None
    | _ => Err [{| loc := [LocKey name]; type := string_type |}]
    end
  end.

Definition validate_Rnc (v : value) : validated Rnc :=
  match v with
  | VDict d =>
    ap (ap (ap (ap (ap (ap (ap (ap (ap (ap (ap (ap (Ok Build_Rnc)
      (str_field (py "RNC") d))
      (str_field (py "ANO") d))
      (str_field (py "PRIORIDADE") d))
      (str_field (py "COD_PRODUTO") d))
      (str_field (py "CLASSIFICACAO") d))
      (str_field (py "DESCRICAO") d))
      (str_field (py "ORIGEM") d))
      (str_field (py "CLIENTE") d))
      (str_field (py "STATUS") d))
      (str_field (py "REGISTRO") d))
      (optional_str_field (py "CONCLUSAO") d))
      (str_field (py "DEPARTAMENTO_DESTINO") d)
  | _ => Err [{| loc := []; type := model_attributes_type |}]
  end.

(** [List[Rnc]]: every item is validated under its index. *)
Fixpoint validate_items (i : nat) (items : list value)
  : validated (list Rnc) :=
  match items with
  | [] => Ok []
  | x :: rest =>
    ap (ap (Ok cons) (under (LocIndex i) (validate_Rnc x)))
       (validate_items (S i) rest)
  end.

Definition validate_RequisicaoAnalista (v : value)
  : validated RequisicaoAnalista :=
  match v with
  | VDict d =>
    match dict_get (py "dados_rnc") d with
    | None => Err [{| loc := [LocKey (py "dados_rnc")]; type := missing |}]
    | Some (VList items) =>
      ap (Ok Build_RequisicaoAnalista)
         (under (LocKey (py "dados_rnc")) (validate_items 0 items))
    | Some _ =>
      Err [{| loc := [LocKey (py "dados_rnc")]; type := list_type |}]
    end
  | _ => Err [{| loc := []; type := model_attributes_type |}]
  end.

End Models.
Import Models.

(* ------------------------------------------------------------------ *)
(** ** The prompt

    The two message literals of [analise_rnc].  Their text is the same,
    character for character, in [src/main.py] (lines 79-91 and 95-143) and
    in [src/old/main.py] (lines 87-99 and 103-151).  A literal is given
    line by line: every non-empty line starts with the sixteen spaces of
    its indentation in the source. *)

Module Prompt.

Definition ind16 : pystr := repeat 32%N 16.

Definition line (fragments : list pystr) : pystr :=
  ind16 ++ concat fragments ++ nl.

Definition blank : pystr := nl.

Definition system_lines : list pystr :=
  [nl;
   line [py "Você é um Auditor ISO 9001 Sênior (perfil analítico e independente). "];
   line [py "Seu objetivo é produzir um parecer técnico robusto, rastreável e baseado estritamente nos dados de RNC fornecidos."];
   blank;
   line [py "Postura e regras:"];
   line [py "- Extraia fatos objetivos e padrões; não aceite explicações vagas."];
   line [py "- Evite respostas genéricas: tudo deve estar ancorado em informações presentes nos dados."];
   line [py "- Diferencie falha pontual vs. falha sistêmica (processo/controle)."];
   line [py "- Identifique tendências (recorrência por cliente, produto, etapa, motivo, setor, fornecedor, turno, operador, máquina, lote, data, ou qualquer marcador existente)."];
   line [py "- Se algum campo crítico estiver ausente/ambíguo, registre explicitamente a limitação e o impacto disso na análise (sem inventar dados)."];
   line [py "- Linguagem técnica e clara, sem jargões vazios."];
   line [py "- Saída obrigatória: JSON puro, sem texto fora do JSON."];
   ind16].

(** The content of the ["system"] message. *)
Definition system_content : pystr := concat system_lines.

(** The lines of the f-string, for [n = len(payload.dados_rnc)]. *)
Definition user_lines (n : nat) (texto_dados : pystr) : list pystr :=
  [nl;
   line [py "Analise detalhadamente estes dados de RNC (texto bruto abaixo). Atenha-se estritamente ao conteúdo fornecido:"];
   line [texto_dados];
   blank;
   line [py "INSTRUÇÕES OBRIGATÓRIAS PARA O PARECER:"];
   line [py "1) Em 'resumo_geral':"];
   line [py "- Escreva no mínimo 2 parágrafos."];
   line [py "- Conecte fatos entre si (o que aconteceu, onde se repete, qual o padrão, qual o indício de falha de processo)."];
   line [py "- Cite explicitamente os códigos de produto e os clientes mencionados nos dados (nomes/códigos conforme aparecerem)."];
   line [py "- Aponte recorrências e padrões com base em evidências dos dados (ex.: “ocorreu X vezes”, “repetiu em datas/lotes/OPs diferentes”, “concentrado em um cliente/produto”)."];
   line [py "- Se os dados não permitirem afirmar recorrência, diga isso claramente e explique o que faltou."];
   line [py "- Ignore RNC com status "; q "Registrada"; py "."];
   blank;
   line [py "2) Em 'principais_causas':"];
   line [py "- Liste somente causas que apareçam nos dados (causa informada, descrição de falha, etapa do processo, evidência repetida)."];
   line [py "- Escreva causas como frases objetivas e auditáveis (ex.: “Falta de inspeção final registrada”, “Parâmetro de processo fora do padrão”, “Matéria-prima fora de especificação”)."];
   line [py "- Não invente causa raiz; se a causa estiver indefinida, registre como “Causa não determinada nos registros” e explique no resumo."];
   blank;
   line [py "3) Em 'analise_de_risco':"];
   line [py "- Classifique como "; q "baixo"; py ", "; q "medio"; py " ou "; q "alto"; py " com base nos próprios dados."];
   line [py "- Justifique no texto (dentro do campo) considerando: recorrência, impacto no cliente, possibilidade de escape, severidade do defeito, status da RNC (aberta/fechada), e repetição por produto/cliente/lote/OP, quando houver."];
   blank;
   line [py "4) Em 'sugestao_plano_acao':"];
   line [py "- Proponha passos práticos e verificáveis, derivados das falhas relatadas e das lacunas de controle percebidas nos dados."];
   line [py "- Não cite requisitos da norma por número; descreva ações de forma operacional (ex.: “revisar ponto de controle X”, “reforçar critério de aceite”, “criar verificação de registro”, “bloquear lote até evidência”, etc.)."];
   line [py "- Se não houver dados suficientes para um plano específico, proponha ações de coleta de evidência (ex.: “levantar histórico por produto/cliente”, “estratificar por causa/status”)."];
   blank;
   line [py "5) Em 'estatisticas':"];
   line [py "- total_analisado: use exatamente "; str_nat n; py "."];
   line [py "- status_predominante: indique o status mais frequente encontrado nos dados (ex.: "; q "ABERTA"; py ", "; q "FECHADA"; py ", "; q "EM_ANDAMENTO"; py "). Se não existir status nos dados, retorne "; q "NAO_INFORMADO"; py "."];
   blank;
   line [py "IMPORTANTE:"];
   line [py "- Não use bullet points fora do JSON."];
   line [py "- Não retorne markdown."];
   line [py "- Não inclua comentários."];
   line [py "- Não inclua campos extras."];
   blank;
   line [py "Retorne EXCLUSIVAMENTE em JSON, exatamente com este esquema e tipos:"];
   line [py "{"];
   line [q "resumo_geral"; py ": "; q "string"; py ","];
   line [q "principais_causas"; py ": ["; q "string"; py ", "; q "string"; py "],"];
   line [q "analise_de_risco"; py ": "; q "baixo|medio|alto"; py ","];
   line [q "sugestao_plano_acao"; py ": "; q "string"; py ","];
   line [q "estatisticas"; py ": {"];
   line [py "    "; q "total_analisado"; py ": "; str_nat n; py ","];
   line [py "    "; q "status_predominante"; py ": "; q "string"];
   line [py "}"];
   line [py "}"];
   ind16].

(** The content of the ["user"] message. *)
Definition user_content (n : nat) (texto_dados : pystr) : pystr :=
  concat (user_lines n texto_dados).

(** [json.dumps([item.model_dump() for item in payload.dados_rnc], indent=2)] *)
Definition texto_dados (payload : RequisicaoAnalista) : pystr :=
  json_dumps (VList (map model_dump (dados_rnc payload))) 2.

(** The text of one key and its value inside a record of the block. *)
Definition member (key : pystr) (v : value) : pystr :=
  py_encode_basestring_ascii key ++ py ": " ++ _iterencode (repeat 32%N 2) 2 v.

(** The text of one record in the block: its dictionary, one level deep. *)
Definition entry (item : Rnc) : pystr :=
  _iterencode (repeat 32%N 2) 1 (model_dump item).

Record message : Type := { role : pystr; content : pystr }.

(** The [messages] argument of the remote call. *)
Definition messages (payload : RequisicaoAnalista) : list message :=
  [{| role := py "system"; content := system_content |};
   {| role := py "user";
      content := user_content (length (dados_rnc payload))
                   (texto_dados payload) |}].

End Prompt.
Import Prompt.

(* ------------------------------------------------------------------ *)
(** ** What a handler does and answers *)

Module Handler.

(** What the caller of the endpoint receives. *)
Inductive response : Type :=
| Returned (body : value)
    (* the handler returned [body]: 200 *)
| HTTPException (status_code : Z) (detail : pystr)
    (* the handler raised [HTTPException] *)
| RequestValidationError (errors : list error_details).
    (* the body did not validate, the handler was not entered: 422 *)

(** What a handler does on the way: log lines and remote calls. *)
Inductive event (Args : Type) : Type :=
| LogInfo (msg : pystr)
| LogError (msg : pystr)
| RemoteCall (args : Args).
Arguments LogInfo {Args} msg.
Arguments LogError {Args} msg.
Arguments RemoteCall {Args} args.

(** A computation inside [try]: its events so far, and its value or the
    text [str(e)] of the exception [e] that ended it. *)
Definition attempt (Args A : Type) : Type :=
  (list (event Args) * result pystr A)%type.

Definition ret {Args A : Type} (a : A) : attempt Args A := ([], Ok a).

Definition raise {Args A : Type} (msg : pystr) : attempt Args A :=
  ([], Err msg).

Definition bind {Args A B : Type} (m : attempt Args A)
           (k : A -> attempt Args B) : attempt Args B :=
  match m with
  | (tr, Ok a) => let (tr', r) := k a in (tr ++ tr', r)
  | (tr, Err e) => (tr, Err e)
  end.

(** A remote call: recorded, then answered by the service. *)
Definition remote {Args A : Type} (service : Args -> result pystr A)
           (args : Args) : attempt Args A :=
  ([RemoteCall args], service args).

(** The remote calls among the events. *)
Fixpoint remote_calls {Args : Type} (tr : list (event Args)) : list Args :=
  match tr with
  | [] => []
  | RemoteCall a :: t => a :: remote_calls t
  | _ :: t => remote_calls t
  end.

(** The request was turned down before the handler was entered, so
    that nothing was done, with [e] among the errors reported. *)
Definition rejected_naming {Args : Type}
           (outcome : list (event Args) * response) (e : error_details)
  : Prop :=
  exists errors,
    outcome = ([], RequestValidationError errors) /\ In e errors.

(** [str(e)] of the [TypeError] of [json.loads(None)]. *)
Definition loads_None_message : pystr :=
  py "the JSON object must be str, bytes or bytearray, not NoneType".

(** [str(e)] of the [IndexError] of [choices[0]] on an empty list. *)
Definition index_message : pystr := py "list index out of range".

End Handler.
Import Handler.

Declare Scope attempt_scope.
Delimit Scope attempt_scope with attempt.
Notation "x <- m ;; k" := (bind m (fun x => k))
  (at level 61, m at next level, right associativity) : attempt_scope.

(* ------------------------------------------------------------------ *)
(** ** [src/main.py]: the hosted backend *)

Module Main.

(** The keyword arguments of [client.chat.completions.create]. *)
Record create_args : Type := {
  model : pystr;
  messages : list message;
  temperature : pyfloat;
  response_format : value
}.

(** The completion object, as far as the handler reads it: the
    [message.content] of each of its [choices]. *)
Record completion : Type := { choices : list (option pystr) }.

(** The answer returned on an empty batch (lines 59-68). *)
Definition stable_result : value :=
  VDict
    [(py "resumo_geral",
      VStr (py "Não foram identificados registros de Não Conformidade (RNC) para os parâmetros selecionados. Os processos operam dentro da normalidade estatística."));
     (py "principais_causas", VList [VStr (py "Operação estável")]);
     (py "analise_de_risco", VStr (py "baixo"));
     (py "sugestao_plano_acao",
      VStr (py "Manter protocolos de monitoramento preventivo."));
     (py "estatisticas",
      VDict [(py "total_analisado", VInt 0);
             (py "status_predominante", VStr (py "N/A"))])].

Definition request (payload : RequisicaoAnalista) : create_args :=
  {| model := py "llama-3.3-70b-versatile";
     messages := Prompt.messages payload;
     temperature := FloatLit 2 10;
     response_format := VDict [(py "type", VStr (py "json_object"))] |}.

Section WithService.

(** [client.chat.completions.create]: a completion, or an exception. *)
Variable create : create_args -> result pystr completion.

(** [json.loads]: the parsed value, or the text of its exception. *)
Variable json_loads : pystr -> result pystr value.

(** [json.loads(completion.choices[0].message.content)] *)
Definition loads_first_choice (c : completion)
  : attempt create_args value :=
  match choices c with
  | [] => raise index_message
  | None :: _ => raise loads_None_message
  | Some text :: _ => ([], json_loads text)
  end.

Local Open Scope attempt_scope.

(** [async def analise_rnc(payload: RequisicaoAnalista)] *)
Definition analise_rnc (payload : RequisicaoAnalista)
  : list (event create_args) * response :=
  if match dados_rnc payload with [] => true | _ :: _ => false end
     || (length (dados_rnc payload) =? 0)%nat
  then
    ([LogInfo (py "Sistema estável: 0 RNCs processadas.")],
     Returned stable_result)
  else
    match
      completion <- remote create (request payload) ;;
      loads_first_choice completion
    with
    | (tr, Ok body) => (tr, Returned body)
    | (tr, Err e) =>
      (tr ++ [LogError (py "Erro: " ++ e)], HTTPException 500 e)
    end.

(** [@app.post("/analise-rnc")]: the parsed body is validated against
    [RequisicaoAnalista] before the handler is entered. *)
Definition post_analise_rnc (body : value)
  : list (event create_args) * response :=
  match under (LocKey (py "body")) (validate_RequisicaoAnalista body) with
  | Ok payload => analise_rnc payload
  | Err errors => ([], RequestValidationError errors)
  end.

End WithService.

End Main.

(* ------------------------------------------------------------------ *)
(** ** [src/old/main.py]: the local backend *)

Module OldMain.

Definition OLLAMA_HOST : pystr := py "http://10.0.3.2:11434".

(** The [options] dictionary of the call. *)
Record chat_options : Type := {
  temperature : pyfloat;
  num_ctx : Z;
  num_thread : Z;
  num_predict : Z;
  top_p : pyfloat
}.

(** [ollama.Client(host=...)] and the keyword arguments of its [chat]. *)
Record chat_args : Type := {
  host : pystr;
  model : pystr;
  messages : list message;
  format : pystr;
  options : chat_options
}.

(** The answer returned on an empty batch (lines 66-72). *)
Definition stable_result : value :=
  VDict
    [(py "resumo_geral",
      VStr (py "Nenhum registro encontrado para análise."));
     (py "principais_causas", VList []);
     (py "analise_de_risco", VStr (py "baixo"));
     (py "sugestao_plano_acao", VStr (py "Manter monitoramento."));
     (py "estatisticas",
      VDict [(py "total_analisado", VInt 0);
             (py "status_predominante", VStr (py "N/A"))])].

(** [max(2048, qtd_rnc * 150)] *)
Definition contexto_dinamico (qtd_rnc : nat) : Z :=
  Z.max 2048 (Z.of_nat qtd_rnc * 150).

Definition request (payload : RequisicaoAnalista) : chat_args :=
  let qtd_rnc := length (dados_rnc payload) in
  {| host := OLLAMA_HOST;
     model := py "llama3.2:latest";
     messages := Prompt.messages payload;
     format := py "json";
     options :=
       {| temperature := FloatLit 1 10;
          num_ctx := contexto_dinamico qtd_rnc;
          num_thread := 8;
          num_predict := 500;
          top_p := FloatLit 1 10 |} |}.

Section WithService.

(** [ollama.Client(host=OLLAMA_HOST).chat]: the [content] of the
    answer's message, or an exception. *)
Variable chat : chat_args -> result pystr (option pystr).

(** [json.loads]: the parsed value, or the text of its exception. *)
Variable json_loads : pystr -> result pystr value.

(** [json.loads(response['message']['content'])] *)
Definition loads_content (content : option pystr)
  : attempt chat_args value :=
  match content with
  | None => raise loads_None_message
  | Some text => ([], json_loads text)
  end.

Local Open Scope attempt_scope.

(** [async def analise_rnc(payload: RequisicaoAnalista)] *)
Definition analise_rnc (payload : RequisicaoAnalista)
  : list (event chat_args) * response :=
  let started :=
    LogInfo (py "Analisando " ++ str_nat (length (dados_rnc payload))
               ++ py " RNCs no servidor local 10.0.3.2") in
  match dados_rnc payload with
  | [] => ([started], Returned stable_result)
  | _ :: _ =>
    match
      content <- remote chat (request payload) ;;
      loads_content content
    with
    | (tr, Ok body) => (started :: tr, Returned body)
    | (tr, Err e) =>
      (started :: tr ++ [LogError (py "Erro no Ollama local: " ++ e)],
       HTTPException 500 (py "Erro no servidor local: " ++ e))
    end
  end.

(** [@app.post("/analise-rnc")] *)
Definition post_analise_rnc (body : value)
  : list (event chat_args) * response :=
  match under (LocKey (py "body")) (validate_RequisicaoAnalista body) with
  | Ok payload => analise_rnc payload
  | Err errors => ([], RequestValidationError errors)
  end.

End WithService.

End OldMain.

(* ------------------------------------------------------------------ *)
(** ** [src/old/main_oldv1.py]: the first hosted handler

    The file is [src/main.py] with another prompt.  Its lines 1-72 (the
    models, the answer to an empty batch, the data block) and the code
    after the call are those of [src/main.py]; the two message literals
    differ.  The lines of the f-string start with twenty spaces. *)

Module OldV1.

Definition ind20 : pystr := repeat 32%N 20.

Definition line (fragments : list pystr) : pystr :=
  ind20 ++ concat fragments ++ nl.

(** The content of the ["system"] message (line 79). *)
Definition system_content : pystr :=
  py "Você é um Auditor ISO 9001 rigoroso. Sua tarefa é descrever os fatos presentes nos dados. É estritamente proibido inventar códigos de produtos, nomes de clientes ou problemas que não constam na lista enviada.".

(** The lines of the f-string (lines 83-106), for
    [n = len(payload.dados_rnc)]. *)
Definition user_lines (n : nat) (texto_dados : pystr) : list pystr :=
  [nl;
  line [py "Analise fielmente estes dados de RNC:"];
  line [texto_dados];
  blank;
  line [py "DIRETRIZES:"];
  line [py "- Descreva o cenário em um tom técnico e detalhado."];
  line [py "- Se um dado não estiver presente, não o presuma."];
  line [py "- Foque na relação entre os códigos de produtos e status reais."];
  line [py "- Não invente códigos de produtos, nomes de clientes ou problemas que não constam na lista enviada."];
  line [py "- Formate o texto para ficar agradavel de ler."];
  line [py "- Não utilize jargões técnicos desnecessários."];
  line [];
  line [py "Retorne em JSON:"];
  line [py "{"];
  line [py "  "; q "resumo_geral"; py ": "; q "Parecer técnico detalhado (mínimo 2 parágrafos)"; py ","];
  line [py "  "; q "principais_causas"; py ": ["; q "lista de causas reais extraídas da descrição"; py "],"];
  line [py "  "; q "analise_de_risco"; py ": "; q "baixo|medio|alto"; py ","];
  line [py "  "; q "sugestao_plano_acao"; py ": "; q "Recomendações baseadas nas descrições"; py ","];
  line [py "  "; q "estatisticas"; py ": {"];
  line [py "     "; q "total_analisado"; py ": "; str_nat n; py ","];
  line [py "     "; q "status_predominante"; py ": "; q "string"];
  line [py "  }"];
  line [py "}"];
   ind20].

Definition user_content (n : nat) (texto_dados : pystr) : pystr :=
  concat (user_lines n texto_dados).

Definition messages (payload : RequisicaoAnalista) : list message :=
  [{| role := py "system"; content := system_content |};
   {| role := py "user";
      content := user_content (length (dados_rnc payload))
                   (texto_dados payload) |}].

Definition request (payload : RequisicaoAnalista) : Main.create_args :=
  {| Main.model := py "llama-3.3-70b-versatile";
     Main.messages := messages payload;
     Main.temperature := FloatLit 2 10;
     Main.response_format := VDict [(py "type", VStr (py "json_object"))] |}.

Section WithService.

Variable create : Main.create_args -> result pystr Main.completion.

Variable json_loads : pystr -> result pystr value.

Local Open Scope attempt_scope.

(** [async def analise_rnc(payload: RequisicaoAnalista)] *)
Definition analise_rnc (payload : RequisicaoAnalista)
  : list (event Main.create_args) * response :=
  if match dados_rnc payload with [] => true | _ :: _ => false end
     || (length (dados_rnc payload) =? 0)%nat
  then
    ([LogInfo (py "Sistema estável: 0 RNCs processadas.")],
     Returned Main.stable_result)
  else
    match
      completion <- remote create (request payload) ;;
      Main.loads_first_choice json_loads completion
    with
    | (tr, Ok body) => (tr, Returned body)
    | (tr, Err e) =>
      (tr ++ [LogError (py "Erro: " ++ e)], HTTPException 500 e)
    end.

End WithService.

End OldV1.

(* ------------------------------------------------------------------ *)
(** ** Reading back, and sample data *)

(** [int(s)] on a run of decimal digits: the inverse of [str_nat]. *)
Definition string_of_bytes (bs : list N) : string :=
  string_of_list_ascii (map ascii_of_N bs).

Definition int_of_str (s : pystr) : option nat :=
  option_map Nat.of_uint (NilEmpty.uint_of_string (string_of_bytes s)).

(** The risk values the prompt allows. *)
Definition risk_values : list pystr := [py "baixo"; py "medio"; py "alto"].

(** The value under [key] of a returned JSON object. *)
Definition field (key : pystr) (body : value) : option value :=
  match body with
  | VDict d => dict_get key d
  | _ => None
  end.

(** A character of an ASCII text: printable, or the line feed. *)
Definition ascii_text (c : char) : bool :=
  ((32 <=? c) && (c <=? 126) || (c =? 10))%N.

(** The number of line feeds of a text. *)
Definition line_breaks (s : pystr) : nat := count_occ N.eq_dec s 10%N.

(** An item of a body with its value passed through [trim_string]. *)
Definition trim_member (kv : pystr * value) : pystr * value :=
  (fst kv, trim_string (snd kv)).

(** An event is an error log line. *)
Definition is_LogError {Args : Type} (e : event Args) : bool :=
  match e with
  | LogError _ => true
  | _ => false
  end.

Module Samples.

(** A record as it arrives in a body, with blanks around two values and
    no [CONCLUSAO]. *)
Definition raw_rnc (rnc status : pystr) : value :=
  VDict
    [(py "RNC", VStr rnc);
     (py "ANO", VStr (py "2024"));
     (py "PRIORIDADE", VStr (py "Alta"));
     (py "COD_PRODUTO", VStr (py " P-100 "));
     (py "CLASSIFICACAO", VStr (py "Interna"));
     (py "DESCRICAO", VStr (py "Trinca na solda"));
     (py "ORIGEM", VStr (py "Linha 2"));
     (py "CLIENTE", VStr (py "ACME"));
     (py "STATUS", VStr status);
     (py "REGISTRO", VStr (py "2024-03-01"));
     (py "DEPARTAMENTO_DESTINO", VStr (py "Qualidade"))].

Definition rnc (rnc status : pystr) : Rnc :=
  {| RNC := rnc; ANO := py "2024"; PRIORIDADE := py "Alta";
     COD_PRODUTO := py "P-100"; CLASSIFICACAO := py "Interna";
     DESCRICAO := py "Trinca na solda"; ORIGEM := py "Linha 2";
     CLIENTE := py "ACME"; STATUS := status;
     REGISTRO := py "2024-03-01"; CONCLUSAO := None;
     DEPARTAMENTO_DESTINO := py "Qualidade" |}.


Definition body_of (items : list value) : value :=
  VDict [(py "dados_rnc", VList items)].

(** One record, status "Registrada". *)
Definition one_registrada : RequisicaoAnalista :=
  {| dados_rnc := [rnc (py "7") (py "Registrada")] |}.

(** Three records: "ABERTA" twice (the same record twice), "FECHADA". *)
Definition three : RequisicaoAnalista :=
  {| dados_rnc := [rnc (py "1") (py "ABERTA"); rnc (py "1") (py "ABERTA");
                   rnc (py "2") (py "FECHADA")] |}.

(** A record without [STATUS]. *)
Definition raw_without_status : value :=
  VDict
    [(py "RNC", VStr (py "1")); (py "ANO", VStr (py "2024"));
     (py "PRIORIDADE", VStr (py "Alta"));
     (py "COD_PRODUTO", VStr (py "P-100"));
     (py "CLASSIFICACAO", VStr (py "Interna"));
     (py "DESCRICAO", VStr (py "Trinca na solda"));
     (py "ORIGEM", VStr (py "Linha 2")); (py "CLIENTE", VStr (py "ACME"));
     (py "REGISTRO", VStr (py "2024-03-01"));
     (py "DEPARTAMENTO_DESTINO", VStr (py "Qualidade"))].

(** A record whose [ANO] is the number 2024. *)
Definition raw_with_number : value :=
  VDict
    [(py "RNC", VStr (py "1")); (py "ANO", VInt 2024);
     (py "PRIORIDADE", VStr (py "Alta"));
     (py "COD_PRODUTO", VStr (py "P-100"));
     (py "CLASSIFICACAO", VStr (py "Interna"));
     (py "DESCRICAO", VStr (py "Trinca na solda"));
     (py "ORIGEM", VStr (py "Linha 2")); (py "CLIENTE", VStr (py "ACME"));
     (py "STATUS", VStr (py "ABERTA"));
     (py "REGISTRO", VStr (py "2024-03-01"));
     (py "DEPARTAMENTO_DESTINO", VStr (py "Qualidade"))].

(** A hosted service whose first choice is [text]. *)
Definition create_text (text : pystr) (_ : Main.create_args)
  : result pystr Main.completion :=
  Ok {| Main.choices := [Some text] |}.

(** A hosted service that raises. *)
Definition create_raises (msg : pystr) (_ : Main.create_args)
  : result pystr Main.completion :=
  Err msg.

(** A local service that answers [text]. *)
Definition chat_text (text : pystr) (_ : OldMain.chat_args)
  : result pystr (option pystr) :=
  Ok (Some text).

Definition chat_raises (msg : pystr) (_ : OldMain.chat_args)
  : result pystr (option pystr) :=
  Err msg.

(** A decoder for the examples: it reads the texts [null] and [{}], and
    rejects every other text with the message [json.loads] gives for a
    text that does not start a JSON value. *)
Definition loads (text : pystr) : result pystr value :=
  if PyStr.eqb text (py "null") then Ok VNone
  else if PyStr.eqb text (py "{}") then Ok (VDict [])
  else Err (py "Expecting value: line 1 column 1 (char 0)").

Definition not_json : pystr := py "Desculpe, sem dados.".

End Samples.

(* ================================================================== *)
(** * Checks on concrete inputs *)

Example py_ascii : py "ab" = [97; 98]%N.
Proof. reflexivity. Qed.

Example py_latin : py "não" = [110; 227; 111]%N.
Proof. reflexivity. Qed.

Example py_quote_marks : py "“X”" = [8220; 88; 8221]%N.
Proof. reflexivity. Qed.

Example strip_X : strip (py "  X  ") = py "X".
Proof. reflexivity. Qed.

Example strip_inner : strip (py "  a  b" ++ [10; 9; 160]%N) = py "a  b".
Proof. reflexivity. Qed.

Example str_nat_0 : str_nat 0 = py "0".
Proof. reflexivity. Qed.

Example str_nat_120 : str_nat 120 = py "120".
Proof. reflexivity. Qed.

Example str_int_neg : str_int (-42) = py "-42".
Proof. reflexivity. Qed.

Example int_of_str_120 : int_of_str (py "120") = Some 120.
Proof. reflexivity. Qed.

Example encode_plain :
  py_encode_basestring_ascii (py "P-100") = q "P-100".
Proof. reflexivity. Qed.

Example encode_latin :
  py_encode_basestring_ascii (py "Peça") = dq ++ py "Pe" ++ [bsl] ++ py "u00e7a" ++ dq.
Proof. reflexivity. Qed.

Example encode_quote_and_tab :
  py_encode_basestring_ascii ([34; 9]%N) = dq ++ [bsl; 34; bsl; 116]%N ++ dq.
Proof. reflexivity. Qed.

Example encode_astral :
  py_encode_basestring_ascii [128512%N]
  = dq ++ [bsl] ++ py "ud83d" ++ [bsl] ++ py "ude00" ++ dq.
Proof. reflexivity. Qed.

Example dumps_empty_list : json_dumps (VList []) 2 = py "[]".
Proof. reflexivity. Qed.

Example dumps_nested :
  json_dumps (VList [VDict [(py "a", VInt 1); (py "b", VNone)]; VBool true]) 2
  = concat [py "["; nl;
            py "  {"; nl;
            py "    "; q "a"; py ": 1,"; nl;
            py "    "; q "b"; py ": null"; nl;
            py "  },"; nl;
            py "  true"; nl;
            py "]"].
Proof. reflexivity. Qed.

Example texto_dados_one_registrada :
  texto_dados Samples.one_registrada
  = concat [py "["; nl;
            py "  {"; nl;
            py "    "; q "RNC"; py ": "; q "7"; py ","; nl;
            py "    "; q "ANO"; py ": "; q "2024"; py ","; nl;
            py "    "; q "PRIORIDADE"; py ": "; q "Alta"; py ","; nl;
            py "    "; q "COD_PRODUTO"; py ": "; q "P-100"; py ","; nl;
            py "    "; q "CLASSIFICACAO"; py ": "; q "Interna"; py ","; nl;
            py "    "; q "DESCRICAO"; py ": "; q "Trinca na solda"; py ","; nl;
            py "    "; q "ORIGEM"; py ": "; q "Linha 2"; py ","; nl;
            py "    "; q "CLIENTE"; py ": "; q "ACME"; py ","; nl;
            py "    "; q "STATUS"; py ": "; q "Registrada"; py ","; nl;
            py "    "; q "REGISTRO"; py ": "; q "2024-03-01"; py ","; nl;
            py "    "; q "CONCLUSAO"; py ": null,"; nl;
            py "    "; q "DEPARTAMENTO_DESTINO"; py ": "; q "Qualidade"; nl;
            py "  }"; nl;
            py "]"].
Proof. vm_compute. reflexivity. Qed.

Example validate_sample :
  validate_RequisicaoAnalista
    (Samples.body_of [Samples.raw_rnc (py " 7") (py "Registrada  ")])
  = Ok Samples.one_registrada.
Proof. vm_compute. reflexivity. Qed.

Example validate_without_status :
  validate_RequisicaoAnalista
    (Samples.body_of [Samples.raw_rnc (py "1") (py "ABERTA");
                      Samples.raw_without_status])
  = Err [{| loc := [LocKey (py "dados_rnc"); LocIndex 1; LocKey (py "STATUS")];
            type := missing |}].
Proof. vm_compute. reflexivity. Qed.

Example validate_collects_errors :
  validate_RequisicaoAnalista
    (Samples.body_of [Samples.raw_with_number; VInt 3;
                      Samples.raw_without_status])
  = Err [{| loc := [LocKey (py "dados_rnc"); LocIndex 0; LocKey (py "ANO")];
            type := string_type |};
         {| loc := [LocKey (py "dados_rnc"); LocIndex 1];
            type := model_attributes_type |};
         {| loc := [LocKey (py "dados_rnc"); LocIndex 2; LocKey (py "STATUS")];
            type := missing |}].
Proof. vm_compute. reflexivity. Qed.

Example contexto_dinamico_small : OldMain.contexto_dinamico 3 = 2048%Z.
Proof. reflexivity. Qed.

Example contexto_dinamico_large : OldMain.contexto_dinamico 20 = 3000%Z.
Proof. reflexivity. Qed.

Example main_not_json :
  Main.analise_rnc (Samples.create_text Samples.not_json) Samples.loads
    Samples.one_registrada
  = ([RemoteCall (Main.request Samples.one_registrada);
      LogError (py "Erro: Expecting value: line 1 column 1 (char 0)")],
     HTTPException 500 (py "Expecting value: line 1 column 1 (char 0)")).
Proof. vm_compute. reflexivity. Qed.

Example old_main_not_json :
  snd (OldMain.analise_rnc (Samples.chat_text Samples.not_json) Samples.loads
         Samples.one_registrada)
  = HTTPException 500
      (py "Erro no servidor local: Expecting value: line 1 column 1 (char 0)").
Proof. vm_compute. reflexivity. Qed.

Example main_passes_through :
  snd (Main.analise_rnc (Samples.create_text (py "{}")) Samples.loads
         Samples.three)
  = Returned (VDict []).
Proof. vm_compute. reflexivity. Qed.

Example system_content_length : length system_content = 1013.
Proof. vm_compute. reflexivity. Qed.

Example system_content_ends :
  prefixb (nl ++ ind16 ++ py "Você é um Auditor ISO 9001 Sênior") system_content
  = true
  /\ infixb (py "sem texto fora do JSON." ++ nl ++ ind16) system_content = true.
Proof. split; vm_compute; reflexivity. Qed.

(** Three records, two "ABERTA" and one "FECHADA": the prompt has the
    three of them and states 3 as the total. *)
Example user_content_three :
  let user := user_content 3 (texto_dados Samples.three) in
  length user = 4392
  /\ infixb (py "- total_analisado: use exatamente 3." ++ nl) user = true
  /\ infixb (q "total_analisado" ++ py ": 3," ++ nl) user = true
  /\ infixb (entry (Samples.rnc (py "1") (py "ABERTA")) ++ py "," ++ nl
               ++ py "  " ++ entry (Samples.rnc (py "1") (py "ABERTA"))
               ++ py "," ++ nl
               ++ py "  " ++ entry (Samples.rnc (py "2") (py "FECHADA")))
            user = true
  /\ infixb (py "- total_analisado: use exatamente 2.") user = false.
Proof. vm_compute. repeat split. Qed.

Example user_content_schema_block :
  infixb (concat [ind16; py "{"; nl;
                  ind16; q "resumo_geral"; py ": "; q "string"; py ","; nl;
                  ind16; q "principais_causas"; py ": ["; q "string"; py ", ";
                  q "string"; py "],"; nl;
                  ind16; q "analise_de_risco"; py ": "; q "baixo|medio|alto";
                  py ","; nl;
                  ind16; q "sugestao_plano_acao"; py ": "; q "string"; py ",";
                  nl;
                  ind16; q "estatisticas"; py ": {"; nl;
                  ind16; py "    "; q "total_analisado"; py ": 1,"; nl;
                  ind16; py "    "; q "status_predominante"; py ": ";
                  q "string"; nl;
                  ind16; py "}"; nl;
                  ind16; py "}"; nl;
                  ind16])
         (user_content 1 (texto_dados Samples.one_registrada))
  = true.
Proof. vm_compute. reflexivity. Qed.

Example main_service_down :
  Main.analise_rnc (Samples.create_raises (py "Connection error."))
    Samples.loads Samples.three
  = ([RemoteCall (Main.request Samples.three);
      LogError (py "Erro: Connection error.")],
     HTTPException 500 (py "Connection error.")).
Proof. vm_compute. reflexivity. Qed.

Example main_empty_batch :
  Main.analise_rnc (Samples.create_raises (py "Connection error."))
    Samples.loads {| dados_rnc := [] |}
  = ([LogInfo (py "Sistema estável: 0 RNCs processadas.")],
     Returned Main.stable_result).
Proof. vm_compute. reflexivity. Qed.

(* ================================================================== *)
(** * Facts about strings *)

Section InfixFacts.

Lemma Infix_refl (s : pystr) : Infix s s.
Proof. exists [], []. now rewrite app_nil_r. Qed.

Lemma Infix_app_l (x a b : pystr) : Infix x b -> Infix x (a ++ b).
Proof.
  intros (pre & post & ->). exists (a ++ pre), post.
  now rewrite <- app_assoc.
Qed.

Lemma Infix_app_r (x a b : pystr) : Infix x a -> Infix x (a ++ b).
Proof.
  intros (pre & post & ->). exists pre, (post ++ b).
  now rewrite <- !app_assoc.
Qed.

Lemma Infix_trans (x y z : pystr) : Infix x y -> Infix y z -> Infix x z.
Proof.
  intros (p1 & s1 & ->) (p2 & s2 & ->).
  exists (p2 ++ p1), (s1 ++ s2). now rewrite <- !app_assoc.
Qed.

Lemma Infix_concat (x : pystr) (ls : list pystr) :
  In x ls -> Infix x (concat ls).
Proof.
  induction ls as [|l ls IH]; simpl; [tauto|].
  intros [-> | H].
  - apply Infix_app_r, Infix_refl.
  - apply Infix_app_l, IH, H.
Qed.

Lemma Infix_join (sep x : pystr) (xs : list pystr) :
  In x xs -> Infix x (join sep xs).
Proof.
  induction xs as [|y ys IH]; simpl; [tauto|].
  intros [-> | H].
  - destruct ys; [apply Infix_refl | apply Infix_app_r, Infix_refl].
  - destruct ys as [|z zs]; [destruct H|].
    apply Infix_app_l, Infix_app_l, IH, H.
Qed.

Lemma prefixb_spec (x s : pystr) :
  prefixb x s = true <-> exists post, s = x ++ post.
Proof.
  revert s; induction x as [|a x IH]; intros s; simpl.
  - split; [intros _; now exists s | reflexivity].
  - destruct s as [|b s].
    + split; [discriminate | intros (post & H); discriminate].
    + rewrite andb_true_iff, N.eqb_eq, IH. split.
      * intros (-> & post & ->). now exists post.
      * intros (post & H). injection H as -> ->. split; [reflexivity|].
        now exists post.
Qed.

Lemma infixb_spec (x s : pystr) : infixb x s = true <-> Infix x s.
Proof.
  induction s as [|b s IH]; simpl.
  - rewrite orb_false_r, prefixb_spec. split.
    + intros (post & H). exists [], post. exact H.
    + intros (pre & post & H).
      destruct pre; [now exists post | discriminate].
  - rewrite orb_true_iff, prefixb_spec, IH. split.
    + intros [(post & ->) | (pre & post & ->)].
      * now exists [], post.
      * now exists (b :: pre), post.
    + intros (pre & post & H). destruct pre as [|c pre].
      * left. now exists post.
      * right. injection H as _ ->. now exists pre, post.
Qed.


End InfixFacts.

Section StripFacts.

Lemma lstrip_split (s : pystr) :
  exists l, s = l ++ lstrip s /\ forallb isspace l = true.
Proof.
  induction s as [|c s (l & E & Hl)]; simpl.
  - now exists [].
  - destruct (isspace c) eqn:Hc.
    + exists (c :: l). simpl. rewrite Hc, Hl. split; [now f_equal|reflexivity].
    + now exists [].
Qed.

Lemma lstrip_head (s : pystr) (c : char) (t : pystr) :
  lstrip s = c :: t -> isspace c = false.
Proof.
  induction s as [|a s IH]; simpl; [discriminate|].
  destruct (isspace a) eqn:Ha; [exact IH|].
  intros E. injection E as <- _. exact Ha.
Qed.

(** Dropping a blank prefix keeps the last character. *)
Lemma lstrip_last (s t : pystr) (c : char) :
  lstrip s = t ++ [c] -> exists t', s = t' ++ [c].
Proof.
  intros E. destruct (lstrip_split s) as (l & Hs & _).
  exists (l ++ t). rewrite Hs at 1. rewrite E. now rewrite app_assoc.
Qed.

Lemma rstrip_split (s : pystr) :
  exists r, s = rstrip s ++ r /\ forallb isspace r = true.
Proof.
  unfold rstrip. destruct (lstrip_split (rev s)) as (l & E & Hl).
  exists (rev l). split.
  - rewrite <- rev_app_distr, <- E. now rewrite rev_involutive.
  - rewrite forallb_forall in *. intros c Hc. apply Hl.
    now apply in_rev.
Qed.

Lemma rstrip_last (s t : pystr) (c : char) :
  rstrip s = t ++ [c] -> isspace c = false.
Proof.
  unfold rstrip. intros E.
  apply (f_equal (@rev char)) in E.
  rewrite rev_involutive, rev_unit in E.
  exact (lstrip_head _ _ _ E).
Qed.

(** [rstrip] keeps the first character of what it leaves. *)
Lemma rstrip_head (s : pystr) (c : char) (t : pystr) :
  rstrip s = c :: t -> exists t', s = c :: t'.
Proof.
  intros E. destruct (rstrip_split s) as (r & Hs & _).
  exists (t ++ r). rewrite Hs at 1. now rewrite E.
Qed.

(** [strip] removes blanks at both ends and nothing else. *)
Lemma strip_spec (s : pystr) :
  (exists l r, s = l ++ strip s ++ r
               /\ forallb isspace l = true /\ forallb isspace r = true)
  /\ (forall c t, strip s = c :: t -> isspace c = false)
  /\ (forall t c, strip s = t ++ [c] -> isspace c = false).
Proof.
  unfold strip. split; [|split].
  - destruct (lstrip_split s) as (l & El & Hl).
    destruct (rstrip_split (lstrip s)) as (r & Er & Hr).
    exists l, r. split; [|now split].
    now rewrite <- Er.
  - intros c t E. destruct (rstrip_head _ _ _ E) as (t' & E').
    exact (lstrip_head _ _ _ E').
  - intros t c E. exact (rstrip_last _ _ _ E).
Qed.

Lemma lstrip_id (s : pystr) :
  (forall c t, s = c :: t -> isspace c = false) -> lstrip s = s.
Proof.
  destruct s as [|c t]; simpl; [reflexivity|].
  intros H. now rewrite (H c t eq_refl).
Qed.

(** A value without blanks at its ends is left as it is. *)
Lemma strip_id (s : pystr) :
  (forall c t, s = c :: t -> isspace c = false) ->
  (forall t c, s = t ++ [c] -> isspace c = false) ->
  strip s = s.
Proof.
  intros Hh Hl. unfold strip. rewrite (lstrip_id _ Hh).
  unfold rstrip. rewrite lstrip_id; [apply rev_involutive|].
  intros c t E. apply (Hl (rev t) c).
  rewrite <- (rev_involutive s), E. reflexivity.
Qed.

Lemma strip_idempotent (s : pystr) : strip (strip s) = strip s.
Proof.
  destruct (strip_spec s) as (_ & Hh & Hl). now apply strip_id.
Qed.

End StripFacts.

Section DecimalFacts.

Lemma string_of_bytes_of_string (s : string) :
  string_of_bytes (bytes_of_string s) = s.
Proof.
  unfold string_of_bytes, bytes_of_string.
  rewrite map_map.
  rewrite (map_ext _ (fun a => a)) by apply ascii_N_embedding.
  rewrite map_id. apply string_of_list_ascii_of_string.
Qed.

(** The decimal text of a length reads back as that length. *)
Lemma int_of_str_str_nat (n : nat) : int_of_str (str_nat n) = Some n.
Proof.
  unfold int_of_str, str_nat.
  rewrite string_of_bytes_of_string, NilEmpty.usu. simpl.
  now rewrite Unsigned.of_to.
Qed.

Lemma str_nat_inj (n m : nat) : str_nat n = str_nat m -> n = m.
Proof.
  intros E. apply (f_equal int_of_str) in E.
  rewrite !int_of_str_str_nat in E. congruence.
Qed.

End DecimalFacts.

(* ================================================================== *)
(** * Facts about the data block *)

Section DataBlockFacts.

Lemma eqb_eq (a b : pystr) : PyStr.eqb a b = true <-> a = b.
Proof.
  revert b; induction a as [|x a IH]; intros [|y b]; simpl;
    try (split; [discriminate | discriminate]); [tauto|].
  rewrite andb_true_iff, N.eqb_eq, IH. split.
  - now intros [-> ->].
  - now intros [= -> ->].
Qed.


(** A non-empty block is a bracketed list with one entry per record, in
    the order of the records. *)
Lemma texto_dados_entries (r : Rnc) (rs : list Rnc) :
  texto_dados {| dados_rnc := r :: rs |}
  = py "[" ++ nl ++ py "  "
      ++ join (py "," ++ nl ++ py "  ") (map entry (r :: rs))
      ++ nl ++ py "]".
Proof.
  unfold texto_dados, json_dumps. cbn [dados_rnc map _iterencode].
  rewrite map_map. reflexivity.
Qed.

(** An entry is a braced list with one member per field, in declaration
    order. *)
Lemma entry_members (item : Rnc) :
  entry item
  = py "{" ++ nl ++ py "    "
      ++ join (py "," ++ nl ++ py "    ")
           (match model_dump item with
            | VDict d => map (fun kv => member (fst kv) (snd kv)) d
            | _ => []
            end)
      ++ nl ++ py "  }".
Proof. reflexivity. Qed.

Lemma entry_in_texto_dados (payload : RequisicaoAnalista) (item : Rnc) :
  In item (dados_rnc payload) -> Infix (entry item) (texto_dados payload).
Proof.
  destruct payload as [[|r rs]]; simpl; [tauto|]. intros H.
  rewrite texto_dados_entries.
  do 3 apply Infix_app_l. apply Infix_app_r.
  apply Infix_join. now apply in_map.
Qed.



End DataBlockFacts.

(* ================================================================== *)
(** * Facts about validation *)

Section ValidationFacts.

Lemma reports_ap_l (A B : Type) (f : validated (A -> B)) (x : validated A)
      (e : error_details) :
  reports f e -> reports (ap f x) e.
Proof.
  destruct f as [g|es], x as [a|es']; simpl; try tauto.
  intros H. apply in_or_app. now left.
Qed.

Lemma reports_ap_r (A B : Type) (f : validated (A -> B)) (x : validated A)
      (e : error_details) :
  reports x e -> reports (ap f x) e.
Proof.
  destruct f as [g|es], x as [a|es']; simpl; try tauto.
  intros H. apply in_or_app. now right.
Qed.

Lemma reports_under (A : Type) (l : loc_item) (x : validated A)
      (e : error_details) :
  reports x e ->
  reports (under l x) {| loc := l :: loc e; type := type e |}.
Proof.
  destruct x as [a|es]; simpl; [tauto|]. intros H.
  apply (in_map (fun e => {| loc := l :: loc e; type := type e |})) in H.
  exact H.
Qed.

Lemma ap_Ok (A B : Type) (f : validated (A -> B)) (x : validated A) (b : B) :
  ap f x = Ok b -> exists g a, f = Ok g /\ x = Ok a /\ b = g a.
Proof.
  destruct f as [g|es], x as [a|es']; simpl; try discriminate.
  intros [= <-]. now exists g, a.
Qed.


(** A required field that is absent is reported as missing. *)
Lemma str_field_missing (name : pystr) (d : dict) :
  dict_get name d = None ->
  reports (str_field name d) {| loc := [LocKey name]; type := missing |}.
Proof. unfold str_field. intros ->. simpl. now left. Qed.

(** A required field whose value is not a string is reported as such. *)
Lemma str_field_not_string (name : pystr) (d : dict) (v : value) :
  dict_get name d = Some v -> (forall s, v <> VStr s) ->
  reports (str_field name d) {| loc := [LocKey name]; type := string_type |}.
Proof.
  unfold str_field. intros -> H.
  destruct v; simpl; try (now left). now destruct (H s).
Qed.

(** An accepted field holds the trimmed text of the value supplied. *)
Lemma str_field_Ok (name : pystr) (d : dict) (s : pystr) :
  str_field name d = Ok s ->
  exists raw, dict_get name d = Some (VStr raw) /\ s = strip raw.
Proof.
  unfold str_field. destruct (dict_get name d) as [v|]; [|discriminate].
  destruct v; simpl; try discriminate.
  intros [= <-]. now eexists.
Qed.


(** An error of a required field is an error of the record. *)
Lemma validate_Rnc_reports (d : dict) (name : pystr) (e : error_details) :
  In name required_fields -> reports (str_field name d) e ->
  reports (validate_Rnc (VDict d)) e.
Proof.
  intros Hin H. unfold validate_Rnc, required_fields in *. simpl in Hin.
  repeat (destruct Hin as [<- | Hin];
          [repeat first [apply reports_ap_r; exact H | apply reports_ap_l]|]).
  destruct Hin.
Qed.

(** An error of the record at position [i] is reported under [k + i]
    when the items are numbered from [k]. *)
Lemma validate_items_reports (items : list value) :
  forall (k i : nat) (x : value) (e : error_details),
    nth_error items i = Some x -> reports (validate_Rnc x) e ->
    reports (validate_items k items)
            {| loc := LocIndex (k + i) :: loc e; type := type e |}.
Proof.
  induction items as [|y items IH]; intros k i x e Hn He.
  - destruct i; discriminate.
  - cbn [validate_items]. destruct i as [|i]; simpl in Hn.
    + injection Hn as ->. rewrite Nat.add_0_r.
      apply reports_ap_l, reports_ap_r, reports_under, He.
    + apply reports_ap_r. replace (k + S i) with (S k + i) by lia.
      now apply IH with (x := x).
Qed.





End ValidationFacts.

(* ================================================================== *)
(** * Facts about the handlers *)

Section HandlerFacts.

Variable create : Main.create_args -> result pystr Main.completion.
Variable chat : OldMain.chat_args -> result pystr (option pystr).
Variable json_loads : pystr -> result pystr value.

(** The hosted handler on an empty batch. *)
Lemma Main_analise_rnc_empty (payload : RequisicaoAnalista) :
  dados_rnc payload = [] ->
  Main.analise_rnc create json_loads payload
  = ([LogInfo (py "Sistema estável: 0 RNCs processadas.")],
     Returned Main.stable_result).
Proof. unfold Main.analise_rnc. intros ->. reflexivity. Qed.

(** The hosted handler on a non-empty batch, by what the service and
    the decoder answer. *)
Lemma Main_analise_rnc_nonempty (payload : RequisicaoAnalista) :
  dados_rnc payload <> [] ->
  Main.analise_rnc create json_loads payload
  = let call := RemoteCall (Main.request payload) in
    let failed e :=
        ([call; LogError (py "Erro: " ++ e)], HTTPException 500 e) in
    match create (Main.request payload) with
    | Err e => failed e
    | Ok completion =>
      match Main.choices completion with
      | [] => failed index_message
      | None :: _ => failed loads_None_message
      | Some text :: _ =>
        match json_loads text with
        | Ok body => ([call], Returned body)
        | Err e => failed e
        end
      end
    end.
Proof.
  unfold Main.analise_rnc. intros H.
  destruct (dados_rnc payload) as [|r rs] eqn:E; [contradiction|].
  cbn [length Nat.eqb orb]. unfold bind, remote, Main.loads_first_choice.
  destruct (create (Main.request payload)) as [c|e]; [|reflexivity].
  destruct (Main.choices c) as [|[text|] more]; reflexivity.
Qed.

(** The local handler on an empty batch. *)
Lemma OldMain_analise_rnc_empty (payload : RequisicaoAnalista) :
  dados_rnc payload = [] ->
  OldMain.analise_rnc chat json_loads payload
  = ([LogInfo (py "Analisando 0 RNCs no servidor local 10.0.3.2")],
     Returned OldMain.stable_result).
Proof. unfold OldMain.analise_rnc. intros ->. vm_compute. reflexivity. Qed.

(** The local handler on a non-empty batch. *)
Lemma OldMain_analise_rnc_nonempty (payload : RequisicaoAnalista) :
  dados_rnc payload <> [] ->
  OldMain.analise_rnc chat json_loads payload
  = let started :=
        LogInfo (py "Analisando " ++ str_nat (length (dados_rnc payload))
                   ++ py " RNCs no servidor local 10.0.3.2") in
    let call := RemoteCall (OldMain.request payload) in
    let failed e :=
        ([started; call; LogError (py "Erro no Ollama local: " ++ e)],
         HTTPException 500 (py "Erro no servidor local: " ++ e)) in
    match chat (OldMain.request payload) with
    | Err e => failed e
    | Ok None => failed loads_None_message
    | Ok (Some text) =>
      match json_loads text with
      | Ok body => ([started; call], Returned body)
      | Err e => failed e
      end
    end.
Proof.
  unfold OldMain.analise_rnc. intros H.
  destruct (dados_rnc payload) as [|r rs] eqn:E; [contradiction|].
  unfold bind, remote, OldMain.loads_content.
  destruct (chat (OldMain.request payload)) as [[text|]|e]; reflexivity.
Qed.

End HandlerFacts.

(* ================================================================== *)
(** * The empty batch *)

(** C1, as the specification states it, fails: the two variants do not
    return one and the same fixed result on an empty batch.  The hosted
    variant and the local variant answer the empty request with different
    summaries, cause lists and recommendations. *)
Lemma C1_variants_answer_differently :
  snd (Main.analise_rnc (Samples.create_text Samples.not_json) Samples.loads
         {| dados_rnc := [] |})
  <> snd (OldMain.analise_rnc (Samples.chat_text Samples.not_json)
            Samples.loads {| dados_rnc := [] |}).
Proof. vm_compute. discriminate. Qed.

(** C1 (amended): on an empty batch each variant returns its own fixed
    result at once, logging one line and never calling the generation
    service; both fixed results have risk "baixo", total_analisado 0,
    status_predominante "N/A" and a recommendation to keep monitoring. *)
Theorem C1_empty_batch_fixed_answer :
  forall payload : RequisicaoAnalista,
    dados_rnc payload = [] ->
    (forall create json_loads,
        snd (Main.analise_rnc create json_loads payload)
        = Returned Main.stable_result
        /\ remote_calls (fst (Main.analise_rnc create json_loads payload)) = [])
    /\ (forall chat json_loads,
           snd (OldMain.analise_rnc chat json_loads payload)
           = Returned OldMain.stable_result
           /\ remote_calls (fst (OldMain.analise_rnc chat json_loads payload))
              = [])
    /\ (forall fixed,
           fixed = Main.stable_result \/ fixed = OldMain.stable_result ->
           field (py "analise_de_risco") fixed = Some (VStr (py "baixo"))
           /\ field (py "estatisticas") fixed
              = Some (VDict [(py "total_analisado", VInt 0);
                             (py "status_predominante", VStr (py "N/A"))])
           /\ exists advice,
               field (py "sugestao_plano_acao") fixed = Some (VStr advice)
               /\ Infix (py "Manter ") advice
               /\ Infix (py "monitoramento") advice).
Proof.
  intros payload H. split; [|split].
  - intros create json_loads.
    now rewrite (Main_analise_rnc_empty create json_loads payload H).
  - intros chat json_loads.
    now rewrite (OldMain_analise_rnc_empty chat json_loads payload H).
  - intros fixed [-> | ->];
      (split; [vm_compute; reflexivity | split; [vm_compute; reflexivity|]]).
    + exists (py "Manter protocolos de monitoramento preventivo.").
      split; [vm_compute; reflexivity|].
      split; apply infixb_spec; vm_compute; reflexivity.
    + exists (py "Manter monitoramento.").
      split; [vm_compute; reflexivity|].
      split; apply infixb_spec; vm_compute; reflexivity.
Qed.

Lemma C1_empty_batch_fixed_answer_witness :
  dados_rnc {| dados_rnc := [] |} = []
  /\ snd (Main.analise_rnc (Samples.create_text Samples.not_json)
            Samples.loads {| dados_rnc := [] |})
     = Returned Main.stable_result
  /\ snd (OldMain.analise_rnc (Samples.chat_raises (py "Connection refused"))
            Samples.loads {| dados_rnc := [] |})
     = Returned OldMain.stable_result.
Proof.
  split; [reflexivity|].
  pose proof (C1_empty_batch_fixed_answer {| dados_rnc := [] |} eq_refl)
    as (Hmain & Hold & _).
  split.
  - exact (proj1 (Hmain _ _)).
  - exact (proj1 (Hold _ _)).
Defined.

(* ================================================================== *)
(** * Facts about the prompt *)

Section PromptFacts.

Variables (n : nat) (data : pystr).

Lemma nth_Infix_concat (ls : list pystr) :
  forall k l, nth_error ls k = Some l -> Infix l (concat ls).
Proof.
  intros k l H. apply Infix_concat. exact (nth_error_In _ _ H).
Qed.

(** Two lines that follow each other occur together in the text. *)
Lemma nth_Infix_concat2 (ls : list pystr) :
  forall k a b,
    nth_error ls k = Some a -> nth_error ls (S k) = Some b ->
    Infix (a ++ b) (concat ls).
Proof.
  induction ls as [|l ls IH]; intros k a b Ha Hb.
  - destruct k; discriminate.
  - destruct k as [|k].
    + destruct ls as [|l' ls']; [discriminate|].
      injection Ha as ->. injection Hb as ->.
      cbn [concat]. rewrite app_assoc. apply Infix_app_r, Infix_refl.
    + cbn [concat]. apply Infix_app_l. exact (IH k a b Ha Hb).
Qed.

Lemma Infix_line (fragments : list pystr) :
  Infix (concat fragments ++ nl) (line fragments).
Proof. unfold line. apply Infix_app_l, Infix_refl. Qed.


Lemma user_lines2 (k : nat) (a b : pystr) :
  nth_error (user_lines n data) k = Some a ->
  nth_error (user_lines n data) (S k) = Some b ->
  Infix (a ++ b) (user_content n data).
Proof. apply nth_Infix_concat2. Qed.


(** Section 5 of the instructions opens with the count. *)
Lemma count_instruction_in_user_content :
  Infix (line [py "5) Em 'estatisticas':"]
           ++ line [py "- total_analisado: use exatamente "; str_nat n; py "."])
        (user_content n data).
Proof. apply (user_lines2 27); reflexivity. Qed.

(** The statistics object of the schema opens with the count. *)
Lemma count_schema_in_user_content :
  Infix (line [q "estatisticas"; py ": {"]
           ++ line [py "    "; q "total_analisado"; py ": "; str_nat n; py ","])
        (user_content n data).
Proof. apply (user_lines2 43); reflexivity. Qed.




End PromptFacts.

Section RequestFacts.

Variable create : Main.create_args -> result pystr Main.completion.
Variable chat : OldMain.chat_args -> result pystr (option pystr).
Variable json_loads : pystr -> result pystr value.

(** On a non-empty batch the hosted handler calls the service once, with
    the request built from the payload, whatever the service answers. *)
Lemma Main_remote_calls (payload : RequisicaoAnalista) :
  dados_rnc payload <> [] ->
  remote_calls (fst (Main.analise_rnc create json_loads payload))
  = [Main.request payload].
Proof.
  intros H. rewrite Main_analise_rnc_nonempty by exact H. cbv zeta.
  destruct (create (Main.request payload)) as [c|e]; [|reflexivity].
  destruct (Main.choices c) as [|[text|] more]; try reflexivity.
  destruct (json_loads text); reflexivity.
Qed.

Lemma OldMain_remote_calls (payload : RequisicaoAnalista) :
  dados_rnc payload <> [] ->
  remote_calls (fst (OldMain.analise_rnc chat json_loads payload))
  = [OldMain.request payload].
Proof.
  intros H. rewrite OldMain_analise_rnc_nonempty by exact H. cbv zeta.
  destruct (chat (OldMain.request payload)) as [[text|]|e]; try reflexivity.
  destruct (json_loads text); reflexivity.
Qed.

(** On an empty batch no call is made. *)
Lemma Main_remote_calls_empty (payload : RequisicaoAnalista) :
  dados_rnc payload = [] ->
  remote_calls (fst (Main.analise_rnc create json_loads payload)) = [].
Proof. intros H. now rewrite Main_analise_rnc_empty. Qed.

Lemma OldMain_remote_calls_empty (payload : RequisicaoAnalista) :
  dados_rnc payload = [] ->
  remote_calls (fst (OldMain.analise_rnc chat json_loads payload)) = [].
Proof. intros H. now rewrite OldMain_analise_rnc_empty. Qed.

End RequestFacts.

(* ================================================================== *)
(** * The record count in the prompt *)

(** C2: for a non-empty batch of n records, the user message handed to
    the generation service, by either variant and whatever the service
    answers, states n in the instruction on total_analisado and in the
    statistics object of the schema; the digits read back as n. *)
Theorem C2_prompt_states_record_count :
  forall (r : Rnc) (rs : list Rnc),
    let payload := {| dados_rnc := r :: rs |} in
    let n := length (r :: rs) in
    let user := user_content n (texto_dados payload) in
    (forall create json_loads,
        remote_calls (fst (Main.analise_rnc create json_loads payload))
        = [Main.request payload])
    /\ (forall chat json_loads,
           remote_calls (fst (OldMain.analise_rnc chat json_loads payload))
           = [OldMain.request payload])
    /\ map content (Main.messages (Main.request payload))
       = [system_content; user]
    /\ map content (OldMain.messages (OldMain.request payload))
       = [system_content; user]
    /\ Infix (py "                " ++ py "5) Em 'estatisticas':" ++ nl
                ++ py "                "
                ++ py "- total_analisado: use exatamente " ++ str_nat n
                ++ py "." ++ nl) user
    /\ Infix (py "                " ++ dq ++ py "estatisticas" ++ dq
                ++ py ": {" ++ nl
                ++ py "                " ++ py "    " ++ dq
                ++ py "total_analisado" ++ dq ++ py ": " ++ str_nat n
                ++ py "," ++ nl) user
    /\ int_of_str (str_nat n) = Some n.
Proof.
  intros r rs payload n user.
  assert (Hne : dados_rnc payload <> []) by discriminate.
  split; [intros; now apply Main_remote_calls|].
  split; [intros; now apply OldMain_remote_calls|].
  split; [reflexivity|]. split; [reflexivity|].
  split.
  { eapply Infix_trans; [|apply count_instruction_in_user_content].
    replace (py "                ") with ind16 by (vm_compute; reflexivity).
    unfold line. cbn [concat]. rewrite ?app_nil_r, <- ?app_assoc.
    apply Infix_refl. }
  split.
  { eapply Infix_trans; [|apply count_schema_in_user_content].
    replace (py "                ") with ind16 by (vm_compute; reflexivity).
    unfold line, q. cbn [concat]. rewrite ?app_nil_r, <- ?app_assoc.
    apply Infix_refl. }
  apply int_of_str_str_nat.
Qed.

(* ================================================================== *)
(** * The risk classification *)



(* ================================================================== *)
(** * Records with status "Registrada" *)



(* ================================================================== *)
(** * The decoding options of the local variant *)

(** C7: for a non-empty batch of n records the local variant calls the
    service once with num_ctx = max(2048, 150 * n), so at least 2048 and
    150 per record from 14 records on, with temperature 0.1, top_p 0.1,
    num_thread 8, num_predict 500 and the format "json". *)
Theorem C7_local_decoding_options :
  forall (r : Rnc) (rs : list Rnc) chat json_loads,
    let payload := {| dados_rnc := r :: rs |} in
    let n := Z.of_nat (length (r :: rs)) in
    let request := OldMain.request payload in
    remote_calls (fst (OldMain.analise_rnc chat json_loads payload)) = [request]
    /\ OldMain.num_ctx (OldMain.options request) = Z.max 2048 (150 * n)
    /\ (2048 <= OldMain.num_ctx (OldMain.options request))%Z
    /\ (150 * n <= OldMain.num_ctx (OldMain.options request))%Z
    /\ OldMain.temperature (OldMain.options request) = FloatLit 1 10
    /\ OldMain.top_p (OldMain.options request) = FloatLit 1 10
    /\ OldMain.num_thread (OldMain.options request) = 8%Z
    /\ OldMain.num_predict (OldMain.options request) = 500%Z
    /\ OldMain.format request = py "json".
Proof.
  intros r rs chat json_loads payload n request.
  split; [now apply OldMain_remote_calls|].
  assert (E : OldMain.num_ctx (OldMain.options request) = Z.max 2048 (150 * n)).
  { unfold request, OldMain.request, OldMain.contexto_dinamico, n, payload.
    cbn [OldMain.num_ctx OldMain.options dados_rnc]. f_equal. lia. }
  split; [exact E|]. rewrite E.
  split; [lia|]. split; [lia|].
  repeat split.
Qed.

(* ================================================================== *)
(** * The prompt depends on the records only *)

(** C10: two invocations on equal record sequences hand the service the
    same system message, user message and decoding options, whatever the
    service and the decoder do in either invocation; what is handed over
    is the request built from the records. *)
Theorem C10_prompt_determined_by_records :
  forall (p1 p2 : RequisicaoAnalista),
    dados_rnc p1 = dados_rnc p2 ->
    (forall create1 create2 loads1 loads2,
        remote_calls (fst (Main.analise_rnc create1 loads1 p1))
        = remote_calls (fst (Main.analise_rnc create2 loads2 p2)))
    /\ (forall chat1 chat2 loads1 loads2,
           remote_calls (fst (OldMain.analise_rnc chat1 loads1 p1))
           = remote_calls (fst (OldMain.analise_rnc chat2 loads2 p2)))
    /\ Prompt.messages p1 = Prompt.messages p2
    /\ Main.request p1 = Main.request p2
    /\ OldMain.request p1 = OldMain.request p2
    /\ (forall create loads,
           remote_calls (fst (Main.analise_rnc create loads p1))
           = match dados_rnc p1 with [] => [] | _ :: _ => [Main.request p1] end)
    /\ (forall chat loads,
           remote_calls (fst (OldMain.analise_rnc chat loads p1))
           = match dados_rnc p1 with
             | [] => []
             | _ :: _ => [OldMain.request p1]
             end).
Proof.
  intros [rs1] [rs2]. simpl. intros <-.
  assert (Hm : forall create loads,
             remote_calls (fst (Main.analise_rnc create loads {| dados_rnc := rs1 |}))
             = match rs1 with
               | [] => []
               | _ :: _ => [Main.request {| dados_rnc := rs1 |}]
               end).
  { intros create loads. destruct rs1 as [|r rs].
    - now apply Main_remote_calls_empty.
    - now apply Main_remote_calls. }
  assert (Ho : forall chat loads,
             remote_calls (fst (OldMain.analise_rnc chat loads {| dados_rnc := rs1 |}))
             = match rs1 with
               | [] => []
               | _ :: _ => [OldMain.request {| dados_rnc := rs1 |}]
               end).
  { intros chat loads. destruct rs1 as [|r rs].
    - now apply OldMain_remote_calls_empty.
    - now apply OldMain_remote_calls. }
  split; [intros; now rewrite !Hm|].
  split; [intros; now rewrite !Ho|].
  repeat split; auto.
Qed.

Lemma C10_prompt_determined_by_records_witness :
  dados_rnc Samples.three = dados_rnc Samples.three
  /\ remote_calls
       (fst (Main.analise_rnc (Samples.create_text (py "{}")) Samples.loads
               Samples.three))
     = remote_calls
         (fst (Main.analise_rnc (Samples.create_raises (py "Connection error."))
                 Samples.loads Samples.three)).
Proof.
  split; [reflexivity|].
  exact (proj1 (C10_prompt_determined_by_records
                  Samples.three Samples.three eq_refl) _ _ _ _).
Defined.

(* ================================================================== *)
(** * Failures *)

(** C3: on a non-empty batch, when the text the service answers is
    rejected by the decoder the handler raises HTTPException 500 carrying
    the decoder's message, and so it does when the call itself raises; a
    body is returned only when the call and the decoding both succeeded;
    the outcome is a returned body or that one error, after exactly one
    call.  The local variant does the same with its prefix before the
    message.  On an empty batch both variants return. *)
Theorem C3_failures_collapse_into_one_error :
  forall (r : Rnc) (rs : list Rnc) create chat json_loads,
    let payload := {| dados_rnc := r :: rs |} in
    let hosted := Main.analise_rnc create json_loads payload in
    let local := OldMain.analise_rnc chat json_loads payload in
    (forall completion text more msg,
        create (Main.request payload) = Ok completion ->
        Main.choices completion = Some text :: more ->
        json_loads text = Err msg ->
        hosted = ([RemoteCall (Main.request payload);
                   LogError (py "Erro: " ++ msg)],
                  HTTPException 500 msg))
    /\ (forall msg,
           create (Main.request payload) = Err msg ->
           hosted = ([RemoteCall (Main.request payload);
                      LogError (py "Erro: " ++ msg)],
                     HTTPException 500 msg))
    /\ (forall body,
           snd hosted = Returned body ->
           exists completion text more,
             create (Main.request payload) = Ok completion
             /\ Main.choices completion = Some text :: more
             /\ json_loads text = Ok body)
    /\ ((exists body, snd hosted = Returned body)
        \/ (exists detail, snd hosted = HTTPException 500 detail))
    /\ remote_calls (fst hosted) = [Main.request payload]
    /\ (forall text msg,
           chat (OldMain.request payload) = Ok (Some text) ->
           json_loads text = Err msg ->
           snd local
           = HTTPException 500 (py "Erro no servidor local: " ++ msg))
    /\ (forall msg,
           chat (OldMain.request payload) = Err msg ->
           snd local
           = HTTPException 500 (py "Erro no servidor local: " ++ msg))
    /\ (forall body,
           snd local = Returned body ->
           exists text,
             chat (OldMain.request payload) = Ok (Some text)
             /\ json_loads text = Ok body)
    /\ ((exists body, snd local = Returned body)
        \/ (exists detail, snd local = HTTPException 500 detail))
    /\ remote_calls (fst local) = [OldMain.request payload]
    /\ snd (Main.analise_rnc create json_loads {| dados_rnc := [] |})
       = Returned Main.stable_result
    /\ snd (OldMain.analise_rnc chat json_loads {| dados_rnc := [] |})
       = Returned OldMain.stable_result.
Proof.
  intros r rs create chat json_loads payload hosted local.
  assert (Hne : dados_rnc payload <> []) by discriminate.
  pose proof (Main_analise_rnc_nonempty create json_loads payload Hne) as Hh.
  pose proof (OldMain_analise_rnc_nonempty chat json_loads payload Hne) as Hl.
  fold hosted in Hh. fold local in Hl. cbv zeta in Hh, Hl.
  repeat match goal with |- _ /\ _ => split end.
  - intros c text more msg Hc Hch Hj.
    now rewrite Hh, Hc, Hch, Hj.
  - intros msg Hc. now rewrite Hh, Hc.
  - intros body. rewrite Hh.
    destruct (create (Main.request payload)) as [c|e]; [|discriminate].
    destruct (Main.choices c) as [|[text|] more] eqn:Hch; try discriminate.
    destruct (json_loads text) as [v|e] eqn:Hj; [|discriminate].
    intros [= <-]. now exists c, text, more.
  - rewrite Hh.
    destruct (create (Main.request payload)) as [c|e]; [|right; now eexists].
    destruct (Main.choices c) as [|[text|] more];
      try (right; now eexists).
    destruct (json_loads text) as [v|e];
      [left; now eexists | right; now eexists].
  - now apply Main_remote_calls.
  - intros text msg Hc Hj. now rewrite Hl, Hc, Hj.
  - intros msg Hc. now rewrite Hl, Hc.
  - intros body. rewrite Hl.
    destruct (chat (OldMain.request payload)) as [[text|]|e];
      try discriminate.
    destruct (json_loads text) as [v|e] eqn:Hj; [|discriminate].
    intros [= <-]. now exists text.
  - rewrite Hl.
    destruct (chat (OldMain.request payload)) as [[text|]|e];
      try (right; now eexists).
    destruct (json_loads text) as [v|e];
      [left; now eexists | right; now eexists].
  - now apply OldMain_remote_calls.
  - now rewrite Main_analise_rnc_empty.
  - now rewrite OldMain_analise_rnc_empty.
Qed.

Lemma C3_failures_collapse_into_one_error_witness :
  Samples.create_text Samples.not_json (Main.request Samples.one_registrada)
  = Ok {| Main.choices := [Some Samples.not_json] |}
  /\ Samples.loads Samples.not_json
     = Err (py "Expecting value: line 1 column 1 (char 0)")
  /\ Main.analise_rnc (Samples.create_text Samples.not_json) Samples.loads
       Samples.one_registrada
     = ([RemoteCall (Main.request Samples.one_registrada);
         LogError (py "Erro: "
                     ++ py "Expecting value: line 1 column 1 (char 0)")],
        HTTPException 500 (py "Expecting value: line 1 column 1 (char 0)")).
Proof.
  assert (Hj : Samples.loads Samples.not_json
               = Err (py "Expecting value: line 1 column 1 (char 0)"))
    by (vm_compute; reflexivity).
  split; [reflexivity|]. split; [exact Hj|].
  exact (proj1 (C3_failures_collapse_into_one_error
                  (Samples.rnc (py "7") (py "Registrada")) []
                  (Samples.create_text Samples.not_json)
                  (Samples.chat_text Samples.not_json) Samples.loads)
               _ _ _ _ eq_refl eq_refl Hj).
Defined.

(* ================================================================== *)
(** * Records that do not validate *)

Section RejectionFacts.

Lemma reports_Err (A : Type) (x : validated A) (e : error_details) :
  reports x e -> exists errors, x = Err errors /\ In e errors.
Proof. destruct x as [a|es]; simpl; [tauto|]. intros H. now exists es. Qed.

(** An error of the record at position [i] is an error of the body,
    reported under body, dados_rnc, i. *)
Lemma body_reports (d : dict) (items : list value) (i : nat) (x : value)
      (e : error_details) :
  dict_get (py "dados_rnc") d = Some (VList items) ->
  nth_error items i = Some x -> reports (validate_Rnc x) e ->
  reports (under (LocKey (py "body")) (validate_RequisicaoAnalista (VDict d)))
          {| loc := LocKey (py "body") :: LocKey (py "dados_rnc")
                      :: LocIndex i :: loc e;
             type := type e |}.
Proof.
  intros Hd Hn He. unfold validate_RequisicaoAnalista. rewrite Hd.
  apply (reports_under _ (LocKey (py "body")) _
           {| loc := LocKey (py "dados_rnc") :: LocIndex i :: loc e;
              type := type e |}).
  apply reports_ap_r.
  apply (reports_under _ (LocKey (py "dados_rnc")) _
           {| loc := LocIndex i :: loc e; type := type e |}).
  exact (validate_items_reports items 0 i x e Hn He).
Qed.

End RejectionFacts.

(** C4: when a record of the body lacks a required field, or gives it a
    value that is not a string, the request is turned down with a
    validation error whose path names the record and the field, and the
    handler is not entered: nothing is logged, no prompt is built, the
    service is not called.  Both variants. *)
Theorem C4_invalid_record_rejected :
  forall (d : dict) (items : list value) (i : nat) (item : dict)
         (name : pystr),
    dict_get (py "dados_rnc") d = Some (VList items) ->
    nth_error items i = Some (VDict item) ->
    In name required_fields ->
    let at_field kind :=
        {| loc := [LocKey (py "body"); LocKey (py "dados_rnc"); LocIndex i;
                   LocKey name];
           type := kind |} in
    (dict_get name item = None ->
     (forall create json_loads,
         rejected_naming (Main.post_analise_rnc create json_loads (VDict d))
                         (at_field missing))
     /\ (forall chat json_loads,
            rejected_naming (OldMain.post_analise_rnc chat json_loads (VDict d))
                            (at_field missing)))
    /\ (forall v,
           dict_get name item = Some v -> (forall s, v <> VStr s) ->
           (forall create json_loads,
               rejected_naming
                 (Main.post_analise_rnc create json_loads (VDict d))
                 (at_field string_type))
           /\ (forall chat json_loads,
                  rejected_naming
                    (OldMain.post_analise_rnc chat json_loads (VDict d))
                    (at_field string_type))).
Proof.
  intros d items i item name Hd Hn Hin at_field.
  assert (Hrej : forall e,
             reports (str_field name item) e ->
             (forall create json_loads,
                 rejected_naming
                   (Main.post_analise_rnc create json_loads (VDict d))
                   {| loc := LocKey (py "body") :: LocKey (py "dados_rnc")
                               :: LocIndex i :: loc e;
                      type := type e |})
             /\ (forall chat json_loads,
                    rejected_naming
                      (OldMain.post_analise_rnc chat json_loads (VDict d))
                      {| loc := LocKey (py "body") :: LocKey (py "dados_rnc")
                                  :: LocIndex i :: loc e;
                         type := type e |})).
  { intros e He.
    apply (validate_Rnc_reports item name e Hin) in He.
    apply (body_reports d items i _ e Hd Hn) in He.
    apply reports_Err in He as (errors & Herr & Hine).
    split; intros svc json_loads;
      unfold Main.post_analise_rnc, OldMain.post_analise_rnc;
      rewrite Herr; now exists errors. }
  split.
  - intros Hmiss. exact (Hrej _ (str_field_missing name item Hmiss)).
  - intros v Hv Hns. exact (Hrej _ (str_field_not_string name item v Hv Hns)).
Qed.

Lemma C4_invalid_record_rejected_witness :
  dict_get (py "dados_rnc")
           [(py "dados_rnc",
             VList [Samples.raw_rnc (py "1") (py "ABERTA");
                    Samples.raw_without_status])]
  = Some (VList [Samples.raw_rnc (py "1") (py "ABERTA");
                 Samples.raw_without_status])
  /\ In (py "STATUS") required_fields
  /\ field (py "STATUS") Samples.raw_without_status = None
  /\ rejected_naming
       (Main.post_analise_rnc (Samples.create_text (py "{}")) Samples.loads
          (Samples.body_of [Samples.raw_rnc (py "1") (py "ABERTA");
                            Samples.raw_without_status]))
       {| loc := [LocKey (py "body"); LocKey (py "dados_rnc"); LocIndex 1;
                  LocKey (py "STATUS")];
          type := missing |}.
Proof.
  assert (Hd : dict_get (py "dados_rnc")
                 [(py "dados_rnc",
                   VList [Samples.raw_rnc (py "1") (py "ABERTA");
                          Samples.raw_without_status])]
               = Some (VList [Samples.raw_rnc (py "1") (py "ABERTA");
                              Samples.raw_without_status]))
    by (vm_compute; reflexivity).
  assert (Hin : In (py "STATUS") required_fields)
    by (do 8 right; left; reflexivity).
  assert (Hmiss : field (py "STATUS") Samples.raw_without_status = None)
    by (vm_compute; reflexivity).
  split; [exact Hd|]. split; [exact Hin|]. split; [exact Hmiss|].
  exact (proj1 (proj1 (C4_invalid_record_rejected _ _ 1 _ (py "STATUS")
                         Hd eq_refl Hin) Hmiss) _ _).
Defined.

Example C4_number_for_a_string :
  Main.post_analise_rnc (Samples.create_text (py "{}")) Samples.loads
    (Samples.body_of [Samples.raw_with_number])
  = ([], RequestValidationError
           [{| loc := [LocKey (py "body"); LocKey (py "dados_rnc"); LocIndex 0;
                       LocKey (py "ANO")];
               type := string_type |}]).
Proof. vm_compute. reflexivity. Qed.

(* ================================================================== *)
(** * Trimmed fields in the prompt *)

Section TrimFacts.



End TrimFacts.




(* ================================================================== *)
(** * The encoding of strings loses nothing *)

Section EncodingFacts.

Local Open Scope N_scope.

Lemma unhexdigit_hexdigit (d : N) : d < 16 -> unhexdigit (hexdigit d) = d.
Proof.
  unfold unhexdigit, hexdigit. intros H.
  destruct (N.ltb_spec d 10).
  - destruct (N.ltb_spec (48 + d) 58); lia.
  - destruct (N.ltb_spec (87 + d) 58); lia.
Qed.

Lemma nibble (n k : N) : N.land (N.shiftr n k) 15 = (n / 2 ^ k) mod 16.
Proof.
  rewrite N.shiftr_div_pow2. change 15 with (N.ones 4).
  now rewrite N.land_ones.
Qed.

Lemma nibbles (n : N) :
  n < 65536 ->
  4096 * ((n / 4096) mod 16) + 256 * ((n / 256) mod 16)
  + 16 * ((n / 16) mod 16) + n mod 16 = n.
Proof.
  intros H. zify; Z.to_euclidean_division_equations; lia.
Qed.

(** The four hexadecimal digits of an escape read back as its number. *)
Lemma unhex4_u_escape (n : N) (x : pystr) :
  n < 65536 ->
  exists h3 h2 h1 h0,
    u_escape n ++ x = bsl :: 117 :: h3 :: h2 :: h1 :: h0 :: x
    /\ unhex4 h3 h2 h1 h0 = n.
Proof.
  intros H. unfold u_escape. do 4 eexists. split; [reflexivity|].
  unfold unhex4. rewrite <- (N.shiftr_0_r n) at 4.
  rewrite !nibble.
  rewrite !unhexdigit_hexdigit by (apply N.mod_lt; discriminate).
  change (2 ^ 12) with 4096. change (2 ^ 8) with 256.
  change (2 ^ 4) with 16. change (2 ^ 0) with 1.
  rewrite N.div_1_r. now apply nibbles.
Qed.

Lemma lor_low_bits (hi b : N) :
  hi = 55296 \/ hi = 56320 -> b < 1024 -> N.lor hi b = hi + b.
Proof.
  intros Hhi Hb.
  assert (Hall : forallb (fun k => (N.lor 55296 (N.of_nat k)
                                    =? 55296 + N.of_nat k)
                                   && (N.lor 56320 (N.of_nat k)
                                       =? 56320 + N.of_nat k))
                         (seq 0 1024) = true)
    by (vm_compute; reflexivity).
  rewrite forallb_forall in Hall.
  specialize (Hall (N.to_nat b)). rewrite N2Nat.id in Hall.
  assert (Hin : In (N.to_nat b) (seq 0 1024)) by (apply in_seq; lia).
  apply Hall in Hin. apply andb_true_iff in Hin as [H1 H2].
  apply N.eqb_eq in H1, H2. destruct Hhi; subst hi; assumption.
Qed.

Lemma ten_bits (n k : N) : N.land (N.shiftr n k) 1023 = (n / 2 ^ k) mod 1024.
Proof.
  rewrite N.shiftr_div_pow2. change 1023 with (N.ones 10).
  now rewrite N.land_ones.
Qed.

(** One character, encoded and followed by anything, reads back as
    itself and what followed. *)
Lemma unescape_head_escape_char (c : char) (x : pystr) :
  scalar c = true -> unescape_head (escape_char c ++ x) = Some (c, x).
Proof.
  intros Hs. unfold escape_char.
  destruct (plain c) eqn:Hp.
  { unfold plain in Hp. cbn [app unescape_head].
    destruct (N.eqb_spec c 34), (N.eqb_spec c 92); subst;
      try discriminate. reflexivity. }
  destruct (N.eqb_spec c 92); [subst; reflexivity|].
  destruct (N.eqb_spec c 34); [subst; reflexivity|].
  destruct (N.eqb_spec c 8); [subst; reflexivity|].
  destruct (N.eqb_spec c 12); [subst; reflexivity|].
  destruct (N.eqb_spec c 10); [subst; reflexivity|].
  destruct (N.eqb_spec c 13); [subst; reflexivity|].
  destruct (N.eqb_spec c 9); [subst; reflexivity|].
  unfold scalar in Hs.
  destruct (N.ltb_spec c 65536) as [Hlt|Hge].
  - destruct (unhex4_u_escape c x Hlt) as (h3 & h2 & h1 & h0 & -> & Hn).
    unfold unescape_head. cbn [N.eqb Pos.eqb negb]. cbv zeta. rewrite Hn.
    destruct (N.leb_spec 55296 c), (N.leb_spec c 56319),
      (N.ltb_spec c 55296), (N.ltb_spec 57343 c);
      try reflexivity; try discriminate; lia.
  - cbv zeta.
    assert (Hc : c < 1114112).
    { destruct (N.ltb_spec c 55296); [lia|].
      destruct (N.ltb_spec 57343 c), (N.ltb_spec c 1114112);
        try discriminate; lia. }
    rewrite !lor_low_bits;
      try (rewrite ?ten_bits; try rewrite <- (N.shiftr_0_r (c - 65536));
           rewrite ?ten_bits; apply N.mod_lt; discriminate);
      try tauto.
    rewrite <- (N.shiftr_0_r (c - 65536)) at 2. rewrite !ten_bits.
    change (2 ^ 10) with 1024. change (2 ^ 0) with 1. rewrite N.div_1_r.
    set (hi := ((c - 65536) / 1024) mod 1024).
    set (lo := (c - 65536) mod 1024).
    assert (Hhi : hi < 1024) by (apply N.mod_lt; discriminate).
    assert (Hlo : lo < 1024) by (apply N.mod_lt; discriminate).
    assert (Hval : 65536 + hi * 1024 + lo = c).
    { unfold hi, lo. zify; Z.to_euclidean_division_equations; lia. }
    rewrite <- app_assoc.
    destruct (unhex4_u_escape (55296 + hi) (u_escape (56320 + lo) ++ x))
      as (h3 & h2 & h1 & h0 & -> & Hn); [lia|].
    destruct (unhex4_u_escape (56320 + lo) x)
      as (l3 & l2 & l1 & l0 & -> & Hn2); [lia|].
    unfold unescape_head. cbn [N.eqb Pos.eqb negb andb]. cbv zeta.
    rewrite Hn, Hn2.
    destruct (N.leb_spec 55296 (55296 + hi)); [|lia].
    destruct (N.leb_spec (55296 + hi) 56319); [|lia].
    destruct (N.leb_spec 56320 (56320 + lo)); [|lia].
    destruct (N.leb_spec (56320 + lo) 57343); [|lia].
    cbn [andb]. clearbody hi lo.
    replace (65536 + (55296 + hi - 55296) * 1024 + (56320 + lo - 56320))
      with c by lia.
    reflexivity.
Qed.

Lemma unescape_head_quote (x : pystr) : unescape_head (dq ++ x) = None.
Proof. reflexivity. Qed.

(** The inside of an encoded string, up to its closing quote, determines
    the string and what follows the quote. *)
Lemma escaped_prefix_free (s1 : pystr) :
  forall (s2 x y : pystr),
    forallb scalar s1 = true -> forallb scalar s2 = true ->
    flat_map escape_char s1 ++ dq ++ x = flat_map escape_char s2 ++ dq ++ y ->
    s1 = s2 /\ x = y.
Proof.
  induction s1 as [|c1 s1 IH]; intros [|c2 s2] x y H1 H2 E;
    cbn [flat_map forallb] in *.
  - injection E as ->. now split.
  - apply (f_equal unescape_head) in E. rewrite <- app_assoc in E.
    apply andb_true_iff in H2 as [Hc2 _].
    rewrite unescape_head_escape_char in E by exact Hc2. discriminate.
  - apply (f_equal unescape_head) in E. rewrite <- app_assoc in E.
    apply andb_true_iff in H1 as [Hc1 _].
    rewrite unescape_head_escape_char in E by exact Hc1. discriminate.
  - apply andb_true_iff in H1 as [Hc1 H1].
    apply andb_true_iff in H2 as [Hc2 H2].
    rewrite <- !app_assoc in E.
    pose proof (f_equal unescape_head E) as Eh.
    rewrite !unescape_head_escape_char in Eh by assumption.
    injection Eh as -> Et.
    destruct (IH s2 x y H1 H2 Et) as [-> ->]. now split.
Qed.

Lemma encode_prefix_free (s1 s2 x y : pystr) :
  forallb scalar s1 = true -> forallb scalar s2 = true ->
  py_encode_basestring_ascii s1 ++ x = py_encode_basestring_ascii s2 ++ y ->
  s1 = s2 /\ x = y.
Proof.
  unfold py_encode_basestring_ascii. intros H1 H2 E.
  rewrite <- !app_assoc in E. apply app_inv_head in E.
  exact (escaped_prefix_free s1 s2 x y H1 H2 E).
Qed.

End EncodingFacts.

(* ================================================================== *)
(** * The data block determines the records *)

Section BlockFacts.

Lemma member_prefix_free (k : pystr) (v1 v2 : value) (x y : pystr) :
  dumped_value v1 -> dumped_value v2 ->
  member k v1 ++ x = member k v2 ++ y -> v1 = v2 /\ x = y.
Proof.
  unfold member. intros H1 H2 E.
  rewrite <- !app_assoc in E. do 2 apply app_inv_head in E.
  destruct v1 as [| | |s1| |], v2 as [| | |s2| |]; try contradiction;
    cbn [_iterencode] in E.
  - apply app_inv_head in E. now split.
  - change (py "null") with [110; 117; 108; 108]%N in E. discriminate.
  - change (py "null") with [110; 117; 108; 108]%N in E. discriminate.
  - destruct (encode_prefix_free s1 s2 x y H1 H2 E) as [-> ->]. now split.
Qed.

(** The members of a dictionary, joined and closed by a line break,
    determine the values, given the keys. *)
Lemma members_prefix_free (sep : pystr) (d1 : dict) :
  forall (d2 : dict) (x y : pystr),
    map fst d1 = map fst d2 ->
    Forall (fun kv => dumped_value (snd kv)) d1 ->
    Forall (fun kv => dumped_value (snd kv)) d2 ->
    join sep (map (fun kv => member (fst kv) (snd kv)) d1) ++ nl ++ x
    = join sep (map (fun kv => member (fst kv) (snd kv)) d2) ++ nl ++ y ->
    d1 = d2 /\ x = y.
Proof.
  induction d1 as [|[k1 v1] d1 IH]; intros [|[k2 v2] d2] x y Hk H1 H2 E;
    try discriminate.
  - cbn [map join app] in E. apply app_inv_head in E. now split.
  - injection Hk as <- Hk.
    inversion H1 as [|? ? Hv1 H1']; subst.
    inversion H2 as [|? ? Hv2 H2']; subst.
    destruct d1 as [|p1 d1], d2 as [|p2 d2]; try discriminate.
    + cbn [map join fst snd] in E.
      destruct (member_prefix_free k1 v1 v2 _ _ Hv1 Hv2 E) as [-> E'].
      apply app_inv_head in E'. now split.
    + change (join sep (map (fun kv => member (fst kv) (snd kv))
                          ((k1, v1) :: p1 :: d1)))
        with (member k1 v1 ++ sep
                ++ join sep (map (fun kv => member (fst kv) (snd kv))
                                 (p1 :: d1))) in E.
      change (join sep (map (fun kv => member (fst kv) (snd kv))
                          ((k1, v2) :: p2 :: d2)))
        with (member k1 v2 ++ sep
                ++ join sep (map (fun kv => member (fst kv) (snd kv))
                                 (p2 :: d2))) in E.
      rewrite <- !app_assoc in E.
      destruct (member_prefix_free k1 v1 v2 _ _ Hv1 Hv2 E) as [-> E'].
      apply app_inv_head in E'.
      destruct (IH (p2 :: d2) x y Hk H1' H2' E') as [-> ->]. now split.
Qed.

Lemma model_dump_values (item : Rnc) :
  Rnc_scalar item = true ->
  match model_dump item with
  | VDict d => Forall (fun kv => dumped_value (snd kv)) d
  | _ => False
  end.
Proof.
  unfold Rnc_scalar. cbn [forallb model_dump]. intros H.
  repeat (apply andb_true_iff in H; destruct H as [? H]).
  repeat constructor; cbn [snd dumped_value]; try assumption.
  destruct (CONCLUSAO item); [assumption | exact I].
Qed.

Lemma model_dump_inj (a b : Rnc) : model_dump a = model_dump b -> a = b.
Proof.
  destruct a as [? ? ? ? ? ? ? ? ? ? ca ?], b as [? ? ? ? ? ? ? ? ? ? cb ?].
  unfold model_dump. cbn. intros E.
  destruct ca, cb; injection E; intros; subst; reflexivity || discriminate.
Qed.

(** The text of a record, followed by anything, determines the record
    and what follows. *)
Lemma entry_prefix_free (a b : Rnc) (x y : pystr) :
  Rnc_scalar a = true -> Rnc_scalar b = true ->
  entry a ++ x = entry b ++ y -> a = b /\ x = y.
Proof.
  intros Ha Hb E. rewrite !entry_members in E.
  pose proof (model_dump_values a Ha) as Va.
  pose proof (model_dump_values b Hb) as Vb.
  assert (Hk : match model_dump a, model_dump b with
               | VDict da, VDict db => map fst da = map fst db
               | _, _ => False
               end) by reflexivity.
  assert (Hinj := model_dump_inj a b).
  destruct (model_dump a) as [| | | | |da]; try contradiction.
  destruct (model_dump b) as [| | | | |db]; try contradiction.
  rewrite <- !app_assoc in E. do 3 apply app_inv_head in E.
  destruct (members_prefix_free _ da db _ _ Hk Va Vb E) as [-> E'].
  apply app_inv_head in E'. split; [now apply Hinj | exact E'].
Qed.

Lemma entry_head (item : Rnc) :
  exists t, entry item = 123%N :: t.
Proof. rewrite entry_members. now eexists. Qed.

(** The entries of a block, joined and closed by a line break, determine
    the records, in number and in order. *)
Lemma entries_prefix_free (rs1 : list Rnc) :
  forall (rs2 : list Rnc) (x y : pystr),
    forallb Rnc_scalar rs1 = true -> forallb Rnc_scalar rs2 = true ->
    join (py "," ++ nl ++ py "  ") (map entry rs1) ++ nl ++ x
    = join (py "," ++ nl ++ py "  ") (map entry rs2) ++ nl ++ y ->
    rs1 = rs2 /\ x = y.
Proof.
  induction rs1 as [|a rs1 IH]; intros [|b rs2] x y H1 H2 E.
  - cbn [map join app] in E. apply app_inv_head in E. now split.
  - exfalso. destruct (entry_head b) as (t & Hb).
    destruct rs2; cbn [map join] in E; rewrite Hb in E; discriminate.
  - exfalso. destruct (entry_head a) as (t & Ha).
    destruct rs1; cbn [map join] in E; rewrite Ha in E; discriminate.
  - cbn [forallb] in H1, H2.
    apply andb_true_iff in H1 as [Ha H1].
    apply andb_true_iff in H2 as [Hb H2].
    destruct rs1 as [|a' rs1], rs2 as [|b' rs2].
    + cbn [map join] in E.
      destruct (entry_prefix_free a b _ _ Ha Hb E) as [-> E'].
      apply app_inv_head in E'. now split.
    + exfalso.
      change (join (py "," ++ nl ++ py "  ") (map entry (b :: b' :: rs2)))
        with (entry b ++ (py "," ++ nl ++ py "  ")
                ++ join (py "," ++ nl ++ py "  ") (map entry (b' :: rs2)))
        in E.
      cbn [map join] in E. rewrite <- !app_assoc in E.
      destruct (entry_prefix_free a b _ _ Ha Hb E) as [_ E'].
      change (py ",") with [44%N] in E'. discriminate.
    + exfalso.
      change (join (py "," ++ nl ++ py "  ") (map entry (a :: a' :: rs1)))
        with (entry a ++ (py "," ++ nl ++ py "  ")
                ++ join (py "," ++ nl ++ py "  ") (map entry (a' :: rs1)))
        in E.
      cbn [map join] in E. rewrite <- !app_assoc in E.
      destruct (entry_prefix_free a b _ _ Ha Hb E) as [_ E'].
      change (py ",") with [44%N] in E'. discriminate.
    + change (join (py "," ++ nl ++ py "  ") (map entry (a :: a' :: rs1)))
        with (entry a ++ (py "," ++ nl ++ py "  ")
                ++ join (py "," ++ nl ++ py "  ") (map entry (a' :: rs1)))
        in E.
      change (join (py "," ++ nl ++ py "  ") (map entry (b :: b' :: rs2)))
        with (entry b ++ (py "," ++ nl ++ py "  ")
                ++ join (py "," ++ nl ++ py "  ") (map entry (b' :: rs2)))
        in E.
      rewrite <- !app_assoc in E.
      destruct (entry_prefix_free a b _ _ Ha Hb E) as [-> E'].
      do 3 apply app_inv_head in E'.
      destruct (IH (b' :: rs2) x y H1 H2 E') as [-> ->]. now split.
Qed.

(** Equal blocks come from equal record sequences. *)
Lemma texto_dados_inj (p1 p2 : RequisicaoAnalista) :
  forallb Rnc_scalar (dados_rnc p1) = true ->
  forallb Rnc_scalar (dados_rnc p2) = true ->
  texto_dados p1 = texto_dados p2 -> dados_rnc p1 = dados_rnc p2.
Proof.
  destruct p1 as [[|a rs1]], p2 as [[|b rs2]]; cbn [dados_rnc];
    intros H1 H2 E.
  - reflexivity.
  - rewrite texto_dados_entries in E.
    change (texto_dados {| dados_rnc := [] |}) with [91; 93]%N in E.
    change (py "[") with [91%N] in E. discriminate.
  - rewrite texto_dados_entries in E.
    change (texto_dados {| dados_rnc := [] |}) with [91; 93]%N in E.
    change (py "[") with [91%N] in E. discriminate.
  - rewrite !texto_dados_entries in E. do 3 apply app_inv_head in E.
    exact (proj1 (entries_prefix_free _ _ _ _ H1 H2 E)).
Qed.

End BlockFacts.

(* ================================================================== *)
(** * Every record is in the data block *)

(** C8: for a non-empty batch, the data block placed in the user message
    handed to the service is a list with exactly one entry per record of
    the batch, the entry at each position being the text of the record at
    that position; the block determines the sequence of records, so that
    no record is dropped, merged with an equal one, or moved. *)
Theorem C8_data_block_keeps_every_record :
  forall (r : Rnc) (rs : list Rnc),
    let payload := {| dados_rnc := r :: rs |} in
    let user := user_content (length (r :: rs)) (texto_dados payload) in
    (forall create json_loads,
        remote_calls (fst (Main.analise_rnc create json_loads payload))
        = [Main.request payload])
    /\ (forall chat json_loads,
           remote_calls (fst (OldMain.analise_rnc chat json_loads payload))
           = [OldMain.request payload])
    /\ map content (Main.messages (Main.request payload))
       = [system_content; user]
    /\ map content (OldMain.messages (OldMain.request payload))
       = [system_content; user]
    /\ Infix (py "                "
                ++ py "Analise detalhadamente estes dados de RNC (texto bruto abaixo). Atenha-se estritamente ao conteúdo fornecido:"
                ++ nl ++ py "                " ++ texto_dados payload ++ nl)
             user
    /\ Infix (texto_dados payload) user
    /\ texto_dados payload
       = py "[" ++ nl ++ py "  "
           ++ join (py "," ++ nl ++ py "  ") (map entry (r :: rs))
           ++ nl ++ py "]"
    /\ length (map entry (r :: rs)) = length (r :: rs)
    /\ (forall i item,
           nth_error (r :: rs) i = Some item ->
           nth_error (map entry (r :: rs)) i = Some (entry item)
           /\ Infix (entry item) (texto_dados payload)
           /\ Infix (entry item) user)
    /\ (forall other : RequisicaoAnalista,
           forallb Rnc_scalar (r :: rs) = true ->
           forallb Rnc_scalar (dados_rnc other) = true ->
           texto_dados other = texto_dados payload ->
           dados_rnc other = r :: rs).
Proof.
  intros r rs payload user.
  assert (Hne : dados_rnc payload <> []) by discriminate.
  assert (Hblock :
            Infix (py "                "
                     ++ py "Analise detalhadamente estes dados de RNC (texto bruto abaixo). Atenha-se estritamente ao conteúdo fornecido:"
                     ++ nl ++ py "                " ++ texto_dados payload
                     ++ nl) user).
  { eapply Infix_trans;
      [|apply (user_lines2 (length (r :: rs)) (texto_dados payload) 1);
        reflexivity].
    replace (py "                ") with ind16 by (vm_compute; reflexivity).
    unfold line. cbn [concat]. rewrite ?app_nil_r, <- ?app_assoc.
    apply Infix_refl. }
  assert (Hdata : Infix (texto_dados payload) user).
  { eapply Infix_trans; [|exact Hblock].
    do 4 apply Infix_app_l. apply Infix_app_r, Infix_refl. }
  split; [intros; now apply Main_remote_calls|].
  split; [intros; now apply OldMain_remote_calls|].
  split; [reflexivity|]. split; [reflexivity|].
  split; [exact Hblock|]. split; [exact Hdata|].
  split; [apply texto_dados_entries|].
  split; [apply length_map|].
  split.
  - intros i item Hn.
    assert (He : Infix (entry item) (texto_dados payload))
      by (apply entry_in_texto_dados; exact (nth_error_In _ _ Hn)).
    split; [now apply map_nth_error|]. split; [exact He|].
    exact (Infix_trans _ _ _ He Hdata).
  - intros other Hp Ho E.
    exact (texto_dados_inj other payload Ho Hp E).
Qed.

Lemma C8_data_block_keeps_every_record_witness :
  nth_error (dados_rnc Samples.three) 1
  = Some (Samples.rnc (py "1") (py "ABERTA"))
  /\ nth_error (map entry (dados_rnc Samples.three)) 1
     = Some (entry (Samples.rnc (py "1") (py "ABERTA")))
  /\ forallb Rnc_scalar (dados_rnc Samples.three) = true
  /\ (texto_dados Samples.three = texto_dados Samples.three ->
      dados_rnc Samples.three = dados_rnc Samples.three).
Proof.
  pose proof (C8_data_block_keeps_every_record
                (Samples.rnc (py "1") (py "ABERTA"))
                [Samples.rnc (py "1") (py "ABERTA");
                 Samples.rnc (py "2") (py "FECHADA")])
    as (_ & _ & _ & _ & _ & _ & _ & _ & Hnth & Hinj).
  assert (Hs : forallb Rnc_scalar (dados_rnc Samples.three) = true)
    by (vm_compute; reflexivity).
  split; [reflexivity|].
  split; [exact (proj1 (Hnth 1 _ eq_refl))|].
  split; [exact Hs|].
  exact (Hinj Samples.three Hs Hs).
Defined.

(** A record given twice is written twice. *)
Example C8_duplicates_kept :
  texto_dados {| dados_rnc := [Samples.rnc (py "1") (py "ABERTA");
                               Samples.rnc (py "1") (py "ABERTA")] |}
  = py "[" ++ nl ++ py "  "
      ++ entry (Samples.rnc (py "1") (py "ABERTA"))
      ++ py "," ++ nl ++ py "  "
      ++ entry (Samples.rnc (py "1") (py "ABERTA"))
      ++ nl ++ py "]"
  /\ texto_dados {| dados_rnc := [Samples.rnc (py "1") (py "ABERTA");
                                  Samples.rnc (py "1") (py "ABERTA")] |}
     <> texto_dados {| dados_rnc := [Samples.rnc (py "1") (py "ABERTA")] |}.
Proof. split; [vm_compute; reflexivity | vm_compute; discriminate]. Qed.

(* ================================================================== *)
(** * More on validation *)

Section MoreValidationFacts.

Lemma field_name_at (k : nat) (name : pystr) :
  nth_error field_names k = Some name -> In name field_names.
Proof. apply nth_error_In. Qed.

Lemma required_in_field_names (name : pystr) :
  In name required_fields -> In name field_names.
Proof.
  unfold required_fields, field_names. simpl. intros H.
  repeat (destruct H as [<- | H]; [tauto|]). destruct H.
Qed.

Lemma trim_string_idempotent (v : value) :
  trim_string (trim_string v) = trim_string v.
Proof. destruct v; simpl; try reflexivity. now rewrite strip_idempotent. Qed.

Lemma optional_str_field_cases (name : pystr) (d : dict) (o : option pystr) :
  optional_str_field name d = Ok o ->
  (o = None /\ (dict_get name d = None \/ dict_get name d = Some VNone))
  \/ exists raw, dict_get name d = Some (VStr raw) /\ o = Some (strip raw).
Proof.
  unfold optional_str_field. destruct (dict_get name d) as [v|].
  - destruct v; simpl; try discriminate.
    + intros [= <-]. left. split; [reflexivity | now right].
    + intros [= <-]. right. now eexists.
  - intros [= <-]. left. split; [reflexivity | now left].
Qed.

(** What validation makes of a dictionary whose twelve fields validate. *)
Lemma validate_Rnc_Ok (d : dict) (item : Rnc) :
  validate_Rnc (VDict d) = Ok item ->
  str_field (py "RNC") d = Ok (RNC item)
  /\ str_field (py "ANO") d = Ok (ANO item)
  /\ str_field (py "PRIORIDADE") d = Ok (PRIORIDADE item)
  /\ str_field (py "COD_PRODUTO") d = Ok (COD_PRODUTO item)
  /\ str_field (py "CLASSIFICACAO") d = Ok (CLASSIFICACAO item)
  /\ str_field (py "DESCRICAO") d = Ok (DESCRICAO item)
  /\ str_field (py "ORIGEM") d = Ok (ORIGEM item)
  /\ str_field (py "CLIENTE") d = Ok (CLIENTE item)
  /\ str_field (py "STATUS") d = Ok (STATUS item)
  /\ str_field (py "REGISTRO") d = Ok (REGISTRO item)
  /\ optional_str_field (py "CONCLUSAO") d = Ok (CONCLUSAO item)
  /\ str_field (py "DEPARTAMENTO_DESTINO") d = Ok (DEPARTAMENTO_DESTINO item).
Proof.
  unfold validate_Rnc. intros H.
  repeat (apply ap_Ok in H;
          let g := fresh "g" in let a := fresh "a" in let Ha := fresh "Ha" in
          destruct H as (g & a & H & Ha & ->)).
  injection H as <-. cbn. repeat split; assumption.
Qed.

Lemma validate_Rnc_of_fields (d : dict) (item : Rnc) :
  str_field (py "RNC") d = Ok (RNC item) ->
  str_field (py "ANO") d = Ok (ANO item) ->
  str_field (py "PRIORIDADE") d = Ok (PRIORIDADE item) ->
  str_field (py "COD_PRODUTO") d = Ok (COD_PRODUTO item) ->
  str_field (py "CLASSIFICACAO") d = Ok (CLASSIFICACAO item) ->
  str_field (py "DESCRICAO") d = Ok (DESCRICAO item) ->
  str_field (py "ORIGEM") d = Ok (ORIGEM item) ->
  str_field (py "CLIENTE") d = Ok (CLIENTE item) ->
  str_field (py "STATUS") d = Ok (STATUS item) ->
  str_field (py "REGISTRO") d = Ok (REGISTRO item) ->
  optional_str_field (py "CONCLUSAO") d = Ok (CONCLUSAO item) ->
  str_field (py "DEPARTAMENTO_DESTINO") d = Ok (DEPARTAMENTO_DESTINO item) ->
  validate_Rnc (VDict d) = Ok item.
Proof.
  intros. unfold validate_Rnc.
  repeat match goal with H : _ = Ok _ |- _ => rewrite H; clear H end.
  destruct item; reflexivity.
Qed.

(** The value of a field in the dictionary [model_dump] builds. *)
Lemma dict_get_model_dump (item : Rnc) :
  field (py "RNC") (model_dump item) = Some (VStr (RNC item))
  /\ field (py "ANO") (model_dump item) = Some (VStr (ANO item))
  /\ field (py "PRIORIDADE") (model_dump item) = Some (VStr (PRIORIDADE item))
  /\ field (py "COD_PRODUTO") (model_dump item)
     = Some (VStr (COD_PRODUTO item))
  /\ field (py "CLASSIFICACAO") (model_dump item)
     = Some (VStr (CLASSIFICACAO item))
  /\ field (py "DESCRICAO") (model_dump item) = Some (VStr (DESCRICAO item))
  /\ field (py "ORIGEM") (model_dump item) = Some (VStr (ORIGEM item))
  /\ field (py "CLIENTE") (model_dump item) = Some (VStr (CLIENTE item))
  /\ field (py "STATUS") (model_dump item) = Some (VStr (STATUS item))
  /\ field (py "REGISTRO") (model_dump item) = Some (VStr (REGISTRO item))
  /\ field (py "CONCLUSAO") (model_dump item)
     = Some (match CONCLUSAO item with Some s => VStr s | None => VNone end)
  /\ field (py "DEPARTAMENTO_DESTINO") (model_dump item)
     = Some (VStr (DEPARTAMENTO_DESTINO item)).
Proof. repeat split; vm_compute; reflexivity. Qed.

Lemma str_field_of_string (name : pystr) (d : dict) (s : pystr) :
  dict_get name d = Some (VStr s) -> str_field name d = Ok (strip s).
Proof. unfold str_field. now intros ->. Qed.

End MoreValidationFacts.

(** X1: a record that came out of validation validates again to itself
    when it is dumped: model_dump followed by validation is the identity
    on validated records. *)
Theorem X1_dump_then_validate_round_trip :
  forall (v : value) (item : Rnc),
    validate_Rnc v = Ok item -> validate_Rnc (model_dump item) = Ok item.
Proof.
  intros v item H.
  destruct v as [| | | | |d]; try discriminate.
  apply validate_Rnc_Ok in H
    as (H1 & H2 & H3 & H4 & H5 & H6 & H7 & H8 & H9 & H10 & H11 & H12).
  repeat match goal with
         | Hf : str_field _ d = Ok _ |- _ =>
           apply str_field_Ok in Hf; destruct Hf as (? & _ & ?)
         end.
  destruct (dict_get_model_dump item)
    as (D1 & D2 & D3 & D4 & D5 & D6 & D7 & D8 & D9 & D10 & D11 & D12).
  unfold field in *.
  destruct (model_dump item) as [| | | | |dd] eqn:Edump; try discriminate.
  apply validate_Rnc_of_fields;
    try (erewrite str_field_of_string by eassumption;
         f_equal;
         match goal with E : ?x = strip _ |- strip ?x = ?x =>
           rewrite E; apply strip_idempotent end).
  unfold optional_str_field. rewrite D11.
  apply optional_str_field_cases in H11 as [[-> _] | (raw & _ & ->)].
  - reflexivity.
  - simpl. now rewrite strip_idempotent.
Qed.

Lemma X1_dump_then_validate_round_trip_witness :
  validate_Rnc (Samples.raw_rnc (py " 7") (py "Registrada  "))
  = Ok (Samples.rnc (py "7") (py "Registrada"))
  /\ validate_Rnc (model_dump (Samples.rnc (py "7") (py "Registrada")))
     = Ok (Samples.rnc (py "7") (py "Registrada")).
Proof.
  assert (H : validate_Rnc (Samples.raw_rnc (py " 7") (py "Registrada  "))
              = Ok (Samples.rnc (py "7") (py "Registrada")))
    by (vm_compute; reflexivity).
  split; [exact H|].
  exact (X1_dump_then_validate_round_trip _ _ H).
Defined.

Section DeclaredKeysFacts.

Lemma pystr_eqb_refl (a : pystr) : PyStr.eqb a a = true.
Proof. exact (proj2 (eqb_eq a a) eq_refl). Qed.

Lemma pystr_eqb_neq (a b : pystr) : a <> b -> PyStr.eqb a b = false.
Proof.
  intros H. destruct (PyStr.eqb a b) eqn:E; [|reflexivity].
  apply (proj1 (eqb_eq a b)) in E. contradiction.
Qed.

Lemma dict_get_trimmed (k : pystr) (d : dict) :
  dict_get k (map trim_member d) = option_map trim_string (dict_get k d).
Proof.
  induction d as [|[k' v] d IH]; simpl; [reflexivity|].
  destruct (PyStr.eqb k k'); [reflexivity | exact IH].
Qed.

(** The outcome for a dictionary is fixed by what it holds under the
    twelve field names. *)
Lemma validate_Rnc_ext (d d' : dict) :
  (forall name, In name field_names -> dict_get name d = dict_get name d') ->
  validate_Rnc (VDict d) = validate_Rnc (VDict d').
Proof.
  intros H. unfold validate_Rnc, str_field, optional_str_field.
  rewrite (H (py "RNC") (field_name_at 0 _ eq_refl)).
  rewrite (H (py "ANO") (field_name_at 1 _ eq_refl)).
  rewrite (H (py "PRIORIDADE") (field_name_at 2 _ eq_refl)).
  rewrite (H (py "COD_PRODUTO") (field_name_at 3 _ eq_refl)).
  rewrite (H (py "CLASSIFICACAO") (field_name_at 4 _ eq_refl)).
  rewrite (H (py "DESCRICAO") (field_name_at 5 _ eq_refl)).
  rewrite (H (py "ORIGEM") (field_name_at 6 _ eq_refl)).
  rewrite (H (py "CLIENTE") (field_name_at 7 _ eq_refl)).
  rewrite (H (py "STATUS") (field_name_at 8 _ eq_refl)).
  rewrite (H (py "REGISTRO") (field_name_at 9 _ eq_refl)).
  rewrite (H (py "CONCLUSAO") (field_name_at 10 _ eq_refl)).
  rewrite (H (py "DEPARTAMENTO_DESTINO") (field_name_at 11 _ eq_refl)).
  reflexivity.
Qed.

End DeclaredKeysFacts.

(** X2: validation of a record looks at the twelve declared keys only.
    Two dictionaries that agree on them validate alike, whatever the order
    of their keys; in particular a key that is not a field name is
    ignored. *)
Theorem X2_only_declared_keys_matter :
  (forall d d' : dict,
      (forall name, In name field_names ->
                    dict_get name d = dict_get name d') ->
      validate_Rnc (VDict d) = validate_Rnc (VDict d'))
  /\ (forall (d : dict) (key : pystr) (v : value),
         ~ In key field_names ->
         validate_Rnc (VDict ((key, v) :: d)) = validate_Rnc (VDict d)
         /\ validate_Rnc (VDict (d ++ [(key, v)])) = validate_Rnc (VDict d)).
Proof.
  split; [exact validate_Rnc_ext|].
  intros d key v Hkey. split.
  - apply validate_Rnc_ext. intros name Hin. simpl.
    rewrite pystr_eqb_neq; [reflexivity|]. intros ->. contradiction.
  - apply validate_Rnc_ext. intros name Hin.
    induction d as [|[k' v'] d IH]; simpl.
    + rewrite pystr_eqb_neq; [reflexivity|]. intros ->. contradiction.
    + destruct (PyStr.eqb name k'); [reflexivity | exact IH].
Qed.

Lemma X2_only_declared_keys_matter_witness :
  ~ In (py "OBSERVACAO") field_names
  /\ validate_Rnc
       (VDict ((py "OBSERVACAO", VInt 3)
                 :: match Samples.raw_rnc (py "1") (py "ABERTA") with
                    | VDict d => d
                    | _ => []
                    end))
     = validate_Rnc
         (VDict match Samples.raw_rnc (py "1") (py "ABERTA") with
                | VDict d => d
                | _ => []
                end).
Proof.
  assert (H : ~ In (py "OBSERVACAO") field_names).
  { intros H. apply (In_nth_error field_names) in H as (k & Hk).
    assert (forallb (fun name => negb (PyStr.eqb name (py "OBSERVACAO")))
                    field_names = true) as Hall by (vm_compute; reflexivity).
    rewrite forallb_forall in Hall.
    specialize (Hall _ (nth_error_In _ _ Hk)).
    rewrite pystr_eqb_refl in Hall. discriminate. }
  split; [exact H|].
  exact (proj1 (proj2 X2_only_declared_keys_matter _ _ (VInt 3) H)).
Defined.

Section TrimTwiceFacts.

Lemma str_field_trimmed (name : pystr) (d : dict) :
  str_field name (map trim_member d) = str_field name d.
Proof.
  unfold str_field. rewrite dict_get_trimmed.
  destruct (dict_get name d) as [v|]; cbn [option_map]; [|reflexivity].
  now rewrite trim_string_idempotent.
Qed.

Lemma optional_str_field_trimmed (name : pystr) (d : dict) :
  optional_str_field name (map trim_member d) = optional_str_field name d.
Proof.
  unfold optional_str_field. rewrite dict_get_trimmed.
  destruct (dict_get name d) as [v|]; cbn [option_map]; [|reflexivity].
  now rewrite trim_string_idempotent.
Qed.

End TrimTwiceFacts.

(** X3: trimming is idempotent, so a body whose values were already
    passed through trim_string validates as the body itself: the same
    record, or the same errors. *)
Theorem X3_trimming_twice_changes_nothing :
  (forall v, trim_string (trim_string v) = trim_string v)
  /\ (forall d : dict,
         validate_Rnc (VDict (map trim_member d)) = validate_Rnc (VDict d)).
Proof.
  split; [exact trim_string_idempotent|].
  intros d. unfold validate_Rnc.
  now rewrite !str_field_trimmed, optional_str_field_trimmed.
Qed.

Section AcceptanceFacts.

Lemma str_field_accepts (name : pystr) (d : dict) :
  (exists s, str_field name d = Ok s)
  <-> exists raw, dict_get name d = Some (VStr raw).
Proof.
  split.
  - intros (s & H). apply str_field_Ok in H as (raw & H & _). now exists raw.
  - intros (raw & H). exists (strip raw). now apply str_field_of_string.
Qed.

Lemma optional_str_field_accepts (name : pystr) (d : dict) :
  (exists o, optional_str_field name d = Ok o)
  <-> (dict_get name d = None \/ dict_get name d = Some VNone
       \/ exists raw, dict_get name d = Some (VStr raw)).
Proof.
  unfold optional_str_field. split.
  - intros (o & H). destruct (dict_get name d) as [v|]; [|now left].
    right. destruct v; simpl in H; try discriminate;
      [now left | right; now eexists].
  - intros [-> | [-> | (raw & ->)]]; now eexists.
Qed.



End AcceptanceFacts.

(** X4: a record is accepted exactly when each of the eleven required
    fields holds a string and CONCLUSAO is absent, null or a string;
    nothing else about the values is checked. *)
Theorem X4_acceptance_of_a_record :
  forall d : dict,
    (exists item, validate_Rnc (VDict d) = Ok item)
    <-> ((forall name, In name required_fields ->
                       exists raw, dict_get name d = Some (VStr raw))
         /\ (dict_get (py "CONCLUSAO") d = None
             \/ dict_get (py "CONCLUSAO") d = Some VNone
             \/ exists raw, dict_get (py "CONCLUSAO") d = Some (VStr raw))).
Proof.
  intros d. split.
  - intros (item & H). apply validate_Rnc_Ok in H
      as (H1 & H2 & H3 & H4 & H5 & H6 & H7 & H8 & H9 & H10 & H11 & H12).
    split.
    + intros name Hin. apply str_field_accepts.
      unfold required_fields in Hin. simpl in Hin.
      repeat (destruct Hin as [<- | Hin]; [eexists; eassumption|]).
      destruct Hin.
    + apply optional_str_field_accepts. eexists; eassumption.
  - intros [Hreq Hopt].
    apply optional_str_field_accepts in Hopt as (o & Ho).
    assert (Hf : forall k name,
               nth_error required_fields k = Some name ->
               exists s, str_field name d = Ok s).
    { intros k name Hk. apply str_field_accepts, Hreq.
      exact (nth_error_In _ _ Hk). }
    destruct (Hf 0 _ eq_refl) as (s1 & E1).
    destruct (Hf 1 _ eq_refl) as (s2 & E2).
    destruct (Hf 2 _ eq_refl) as (s3 & E3).
    destruct (Hf 3 _ eq_refl) as (s4 & E4).
    destruct (Hf 4 _ eq_refl) as (s5 & E5).
    destruct (Hf 5 _ eq_refl) as (s6 & E6).
    destruct (Hf 6 _ eq_refl) as (s7 & E7).
    destruct (Hf 7 _ eq_refl) as (s8 & E8).
    destruct (Hf 8 _ eq_refl) as (s9 & E9).
    destruct (Hf 9 _ eq_refl) as (s10 & E10).
    destruct (Hf 10 _ eq_refl) as (s12 & E12).
    exists (Build_Rnc s1 s2 s3 s4 s5 s6 s7 s8 s9 s10 o s12).
    now apply validate_Rnc_of_fields.
Qed.

Lemma X4_acceptance_of_a_record_witness :
  (exists item,
      validate_Rnc (Samples.raw_rnc (py " 7") (py "Registrada  ")) = Ok item)
  /\ exists raw,
      field (py "STATUS") (Samples.raw_rnc (py " 7") (py "Registrada  "))
      = Some (VStr raw).
Proof.
  assert (H : exists item,
             validate_Rnc (Samples.raw_rnc (py " 7") (py "Registrada  "))
             = Ok item)
    by (eexists; vm_compute; reflexivity).
  split; [exact H|].
  assert (Hin : In (py "STATUS") required_fields)
    by (apply (nth_error_In _ 8); reflexivity).
  exact (proj1 (proj1 (X4_acceptance_of_a_record _) H) (py "STATUS") Hin).
Defined.



(* ================================================================== *)
(** * More on rejected and accepted bodies *)

Section ErrorPathFacts.

Lemma reports_ap (A B : Type) (f : validated (A -> B)) (x : validated A)
      (e : error_details) :
  reports (ap f x) e -> reports f e \/ reports x e.
Proof.
  destruct f as [g|es], x as [a|es']; simpl; try tauto.
  intros H. apply in_app_or in H. tauto.
Qed.

Lemma reports_under_inv (A : Type) (l : loc_item) (x : validated A)
      (e : error_details) :
  reports (under l x) e ->
  exists rest, loc e = l :: rest /\ reports x {| loc := rest; type := type e |}.
Proof.
  destruct x as [a|es]; simpl; [tauto|]. intros H.
  apply in_map_iff in H as (e0 & <- & Hin). exists (loc e0). split.
  - reflexivity.
  - simpl. now destruct e0.
Qed.

(** Every error of a list of items is an error of one of them, under its
    index. *)
Lemma validate_items_reports_inv (items : list value) :
  forall (k : nat) (e : error_details),
    reports (validate_items k items) e ->
    exists i x rest,
      nth_error items i = Some x /\ loc e = LocIndex (k + i) :: rest
      /\ reports (validate_Rnc x) {| loc := rest; type := type e |}.
Proof.
  induction items as [|y items IH]; intros k e H; cbn [validate_items] in H.
  - destruct H.
  - apply reports_ap in H as [H | H].
    + apply reports_ap in H as [[] | H].
      apply reports_under_inv in H as (rest & Hl & Hr).
      exists 0, y, rest. rewrite Nat.add_0_r. now split.
    + apply IH in H as (i & x & rest & Hn & Hl & Hr).
      exists (S i), x, rest. split; [exact Hn|]. split; [|exact Hr].
      rewrite Hl. f_equal. f_equal. lia.
Qed.


End ErrorPathFacts.

(** X6: the errors reported for a body whose dados_rnc is a list are all
    real: each one sits under body, dados_rnc and the index of an item of
    the list, and is an error of the validation of that item. *)
Theorem X6_reported_errors_point_at_items :
  forall (d : dict) (items : list value) (errors : list error_details),
    dict_get (py "dados_rnc") d = Some (VList items) ->
    under (LocKey (py "body")) (validate_RequisicaoAnalista (VDict d))
    = Err errors ->
    forall e,
      In e errors ->
      exists i x rest,
        nth_error items i = Some x
        /\ loc e = LocKey (py "body") :: LocKey (py "dados_rnc")
                     :: LocIndex i :: rest
        /\ reports (validate_Rnc x) {| loc := rest; type := type e |}.
Proof.
  intros d items errors Hd Herr e Hin.
  assert (Hrep : reports (under (LocKey (py "body"))
                            (validate_RequisicaoAnalista (VDict d))) e)
    by (rewrite Herr; exact Hin).
  apply reports_under_inv in Hrep as (r1 & Hl1 & Hrep).
  unfold validate_RequisicaoAnalista in Hrep. rewrite Hd in Hrep.
  apply reports_ap in Hrep as [[] | Hrep].
  apply reports_under_inv in Hrep as (r2 & Hl2 & Hrep).
  apply validate_items_reports_inv in Hrep as (i & x & rest & Hn & Hl3 & Hr).
  exists i, x, rest. split; [exact Hn|]. split; [|exact Hr].
  simpl in Hl2, Hl3. rewrite Hl1, Hl2, Hl3. reflexivity.
Qed.

Lemma X6_reported_errors_point_at_items_witness :
  exists i x rest,
    nth_error [Samples.raw_with_number; VInt 3; Samples.raw_without_status] i
    = Some x
    /\ [LocKey (py "body"); LocKey (py "dados_rnc"); LocIndex 2;
        LocKey (py "STATUS")]
       = LocKey (py "body") :: LocKey (py "dados_rnc") :: LocIndex i :: rest
    /\ reports (validate_Rnc x) {| loc := rest; type := missing |}.
Proof.
  refine (X6_reported_errors_point_at_items
            [(py "dados_rnc",
              VList [Samples.raw_with_number; VInt 3;
                     Samples.raw_without_status])]
            _
            [{| loc := [LocKey (py "body"); LocKey (py "dados_rnc");
                        LocIndex 0; LocKey (py "ANO")];
                type := string_type |};
             {| loc := [LocKey (py "body"); LocKey (py "dados_rnc");
                        LocIndex 1];
                type := model_attributes_type |};
             {| loc := [LocKey (py "body"); LocKey (py "dados_rnc");
                        LocIndex 2; LocKey (py "STATUS")];
                type := missing |}]
            _ _
            {| loc := [LocKey (py "body"); LocKey (py "dados_rnc");
                       LocIndex 2; LocKey (py "STATUS")];
               type := missing |} _).
  - vm_compute. reflexivity.
  - vm_compute. reflexivity.
  - right. right. left. reflexivity.
Defined.





(* ================================================================== *)
(** * More on the handlers *)

(** X9: on a non-empty batch, whatever value the decoder reads from the
    service's text is returned as it is, by both variants: neither checks
    the keys, the risk value or the total of the body, and nothing is
    logged beyond the opening line of the local variant. *)
Theorem X9_decoded_body_returned_unchecked :
  forall (r : Rnc) (rs : list Rnc) create chat json_loads
         (text : pystr) (body : value),
    let payload := {| dados_rnc := r :: rs |} in
    json_loads text = Ok body ->
    (forall completion more,
        create (Main.request payload) = Ok completion ->
        Main.choices completion = Some text :: more ->
        Main.analise_rnc create json_loads payload
        = ([RemoteCall (Main.request payload)], Returned body))
    /\ (chat (OldMain.request payload) = Ok (Some text) ->
        OldMain.analise_rnc chat json_loads payload
        = ([LogInfo (py "Analisando " ++ str_nat (length (r :: rs))
                       ++ py " RNCs no servidor local 10.0.3.2");
            RemoteCall (OldMain.request payload)],
           Returned body)).
Proof.
  intros r rs create chat json_loads text body payload Hj.
  assert (Hne : dados_rnc payload <> []) by discriminate.
  split.
  - intros c more Hc Hch.
    rewrite Main_analise_rnc_nonempty by exact Hne. cbv zeta.
    now rewrite Hc, Hch, Hj.
  - intros Hc.
    rewrite OldMain_analise_rnc_nonempty by exact Hne. cbv zeta.
    now rewrite Hc, Hj.
Qed.

Lemma X9_decoded_body_returned_unchecked_witness :
  Samples.loads (py "null") = Ok VNone
  /\ Main.analise_rnc (Samples.create_text (py "null")) Samples.loads
       Samples.one_registrada
     = ([RemoteCall (Main.request Samples.one_registrada)], Returned VNone).
Proof.
  assert (Hj : Samples.loads (py "null") = Ok VNone)
    by (vm_compute; reflexivity).
  split; [exact Hj|].
  exact (proj1 (X9_decoded_body_returned_unchecked
                  (Samples.rnc (py "7") (py "Registrada")) []
                  (Samples.create_text (py "null"))
                  (Samples.chat_text (py "null")) Samples.loads
                  (py "null") VNone Hj)
               _ _ eq_refl eq_refl).
Defined.

Section LogFacts.

Variable create : Main.create_args -> result pystr Main.completion.
Variable chat : OldMain.chat_args -> result pystr (option pystr).
Variable json_loads : pystr -> result pystr value.

(** The hosted handler: its events and its answer, in all cases. *)
Lemma Main_outcome_shape (payload : RequisicaoAnalista) :
  let outcome := Main.analise_rnc create json_loads payload in
  (exists body,
      snd outcome = Returned body
      /\ existsb is_LogError (fst outcome) = false)
  \/ (exists detail,
         outcome = ([RemoteCall (Main.request payload);
                     LogError (py "Erro: " ++ detail)],
                    HTTPException 500 detail)).
Proof.
  cbv zeta. destruct (dados_rnc payload) as [|r rs] eqn:E.
  - rewrite Main_analise_rnc_empty by exact E. left. now eexists.
  - rewrite Main_analise_rnc_nonempty by congruence. cbv zeta.
    destruct (create (Main.request payload)) as [c|e]; [|right; now eexists].
    destruct (Main.choices c) as [|[text|] more]; try (right; now eexists).
    destruct (json_loads text) as [v|e];
      [left; now eexists | right; now eexists].
Qed.

Lemma OldMain_outcome_shape (payload : RequisicaoAnalista) :
  let outcome := OldMain.analise_rnc chat json_loads payload in
  let started :=
      LogInfo (py "Analisando " ++ str_nat (length (dados_rnc payload))
                 ++ py " RNCs no servidor local 10.0.3.2") in
  hd_error (fst outcome) = Some started
  /\ ((exists body,
          snd outcome = Returned body
          /\ existsb is_LogError (fst outcome) = false)
      \/ (exists msg,
             outcome = ([started; RemoteCall (OldMain.request payload);
                         LogError (py "Erro no Ollama local: " ++ msg)],
                        HTTPException 500
                          (py "Erro no servidor local: " ++ msg)))).
Proof.
  cbv zeta. destruct (dados_rnc payload) as [|r rs] eqn:E.
  - rewrite OldMain_analise_rnc_empty; [|exact E].
    split; [vm_compute; reflexivity|]. left. now eexists.
  - rewrite OldMain_analise_rnc_nonempty; [|congruence]. cbv zeta.
    rewrite E.
    destruct (chat (OldMain.request payload)) as [[text|]|e];
      try (split; [reflexivity | right; now eexists]).
    destruct (json_loads text) as [v|e];
      (split; [reflexivity|]); [left; now eexists | right; now eexists].
Qed.

End LogFacts.

(** X10: a handler logs an error exactly when it answers with an
    HTTPException, which is always a 500: a returned body comes with no
    error line, and a failure comes with one error line, after the single
    call, that carries the text of the detail.  The local variant opens
    every request, empty or not, with its line stating the batch size. *)
Theorem X10_error_logged_exactly_on_failure :
  forall (payload : RequisicaoAnalista) create chat json_loads,
    let hosted := Main.analise_rnc create json_loads payload in
    let local := OldMain.analise_rnc chat json_loads payload in
    let started :=
        LogInfo (py "Analisando " ++ str_nat (length (dados_rnc payload))
                   ++ py " RNCs no servidor local 10.0.3.2") in
    ((exists body,
         snd hosted = Returned body
         /\ existsb is_LogError (fst hosted) = false)
     \/ (exists detail,
            hosted = ([RemoteCall (Main.request payload);
                       LogError (py "Erro: " ++ detail)],
                      HTTPException 500 detail)))
    /\ hd_error (fst local) = Some started
    /\ ((exists body,
            snd local = Returned body
            /\ existsb is_LogError (fst local) = false)
        \/ (exists msg,
               local = ([started; RemoteCall (OldMain.request payload);
                         LogError (py "Erro no Ollama local: " ++ msg)],
                        HTTPException 500
                          (py "Erro no servidor local: " ++ msg)))).
Proof.
  intros payload create chat json_loads. cbv zeta.
  split; [apply Main_outcome_shape | apply OldMain_outcome_shape].
Qed.

(** X11: the context size of the local variant never shrinks when the
    batch grows; it stays 2048 up to 13 records and is 150 per record
    from 14 records on. *)
Theorem X11_context_size_steps :
  forall n m : nat,
    (n <= m -> (OldMain.contexto_dinamico n <= OldMain.contexto_dinamico m)%Z)
    /\ (OldMain.contexto_dinamico n = 2048%Z <-> n <= 13)
    /\ (14 <= n -> OldMain.contexto_dinamico n = (150 * Z.of_nat n)%Z).
Proof.
  intros n m. unfold OldMain.contexto_dinamico. repeat split; lia.
Qed.

Lemma X11_context_size_steps_witness :
  13 <= 14
  /\ (OldMain.contexto_dinamico 13 <= OldMain.contexto_dinamico 14)%Z
  /\ OldMain.contexto_dinamico 14 = 2100%Z.
Proof.
  assert (H : 13 <= 14) by lia.
  split; [exact H|]. split.
  - exact (proj1 (X11_context_size_steps 13 14) H).
  - exact (proj2 (proj2 (X11_context_size_steps 14 0)) (le_n 14)).
Defined.

(* ================================================================== *)
(** * More on [json.dumps] *)

Section AsciiFacts.

Local Open Scope N_scope.

Lemma hexdigit_ascii (d : N) : d < 16 -> ascii_text (hexdigit d) = true.
Proof.
  unfold ascii_text, hexdigit. intros H.
  destruct (N.ltb_spec d 10).
  - destruct (N.leb_spec 32 (48 + d)), (N.leb_spec (48 + d) 126);
      try reflexivity; lia.
  - destruct (N.leb_spec 32 (87 + d)), (N.leb_spec (87 + d) 126);
      try reflexivity; lia.
Qed.

Lemma u_escape_ascii (n : N) : forallb ascii_text (u_escape n) = true.
Proof.
  unfold u_escape. cbn [forallb].
  rewrite <- (N.shiftr_0_r n) at 4.
  rewrite !hexdigit_ascii
    by (rewrite nibble; apply N.mod_lt; discriminate).
  reflexivity.
Qed.

Lemma escape_char_ascii (c : char) : forallb ascii_text (escape_char c) = true.
Proof.
  unfold escape_char.
  destruct (plain c) eqn:Hp.
  { cbn [forallb]. unfold plain in Hp. unfold ascii_text.
    apply andb_true_iff in Hp as [Hp _]. apply andb_true_iff in Hp as [Hp _].
    now rewrite Hp. }
  repeat match goal with
         | |- context [if ?b then _ else _] =>
           destruct b; [first [reflexivity | apply u_escape_ascii]|]
         end.
  rewrite forallb_app, !u_escape_ascii. reflexivity.
Qed.

Lemma encode_ascii (s : pystr) :
  forallb ascii_text (py_encode_basestring_ascii s) = true.
Proof.
  unfold py_encode_basestring_ascii. rewrite !forallb_app.
  replace (forallb ascii_text dq) with true by reflexivity.
  rewrite andb_true_r. cbn [andb].
  induction s as [|c s IH]; [reflexivity|].
  cbn [flat_map]. now rewrite forallb_app, escape_char_ascii, IH.
Qed.

Lemma uint_ascii (d : Decimal.uint) :
  forallb ascii_text (bytes_of_string (NilEmpty.string_of_uint d)) = true.
Proof. induction d; simpl; try reflexivity; exact IHd. Qed.

Lemma str_int_ascii (z : Z) : forallb ascii_text (str_int z) = true.
Proof.
  unfold str_int. destruct (Z.to_int z) as [d|d]; simpl.
  - apply uint_ascii.
  - apply uint_ascii.
Qed.

Lemma join_ascii (sep : pystr) (xs : list pystr) :
  forallb ascii_text sep = true ->
  Forall (fun x => forallb ascii_text x = true) xs ->
  forallb ascii_text (join sep xs) = true.
Proof.
  intros Hsep H. induction H as [|x xs Hx Hxs IH]; [reflexivity|].
  destruct xs as [|y ys]; [exact Hx|].
  change (join sep (x :: y :: ys)) with (x ++ sep ++ join sep (y :: ys)).
  now rewrite !forallb_app, Hx, Hsep, IH.
Qed.

Lemma indentation_ascii (ind : pystr) (level : nat) :
  forallb ascii_text ind = true ->
  forallb ascii_text (indentation ind level) = true.
Proof.
  intros H. unfold indentation. induction level; simpl; [reflexivity|].
  now rewrite forallb_app, H, IHlevel.
Qed.

(** Whatever the value, what the encoder writes is ASCII. *)
Lemma iterencode_ascii (ind : pystr) :
  forallb ascii_text ind = true ->
  forall (o : value) (level : nat),
    forallb ascii_text (_iterencode ind level o) = true.
Proof.
  intros Hind. fix IH 1. intros o level.
  destruct o as [|b|z|s|l|d].
  - reflexivity.
  - destruct b; reflexivity.
  - apply str_int_ascii.
  - apply encode_ascii.
  - destruct l as [|x l]; [reflexivity|].
    cbn [_iterencode]. rewrite !forallb_app.
    rewrite (indentation_ascii ind (S level) Hind).
    rewrite (indentation_ascii ind level Hind).
    rewrite join_ascii.
    + reflexivity.
    + rewrite !forallb_app, (indentation_ascii ind (S level) Hind).
      reflexivity.
    + change (Forall (fun x => forallb ascii_text x = true)
                     (map (_iterencode ind (S level)) (x :: l))).
      generalize (x :: l). intros l'.
      induction l' as [|y l' IHl]; constructor; [apply IH | exact IHl].
  - destruct d as [|kv d]; [reflexivity|].
    cbn [_iterencode]. rewrite !forallb_app.
    rewrite (indentation_ascii ind (S level) Hind).
    rewrite (indentation_ascii ind level Hind).
    rewrite join_ascii.
    + reflexivity.
    + rewrite !forallb_app, (indentation_ascii ind (S level) Hind).
      reflexivity.
    + generalize (kv :: d). intros d'.
      induction d' as [|[k v] d' IHd]; constructor; [|exact IHd].
      rewrite !forallb_app, encode_ascii, IH. reflexivity.
Qed.

End AsciiFacts.

(** X12: whatever json.dumps is given and whatever the indent, its text
    is ASCII: printable characters and line feeds only.  So the data
    block of a prompt is ASCII whatever the records hold. *)
Theorem X12_dumps_is_ascii :
  (forall (obj : value) (indent : nat),
      forallb ascii_text (json_dumps obj indent) = true)
  /\ (forall payload : RequisicaoAnalista,
         forallb ascii_text (texto_dados payload) = true).
Proof.
  assert (H : forall obj indent,
             forallb ascii_text (json_dumps obj indent) = true).
  { intros obj indent. unfold json_dumps. apply iterencode_ascii.
    induction indent; [reflexivity | exact IHindent]. }
  split; [exact H|]. intros payload. apply H.
Qed.

Section LineBreakFacts.

Lemma line_breaks_app (a b : pystr) :
  line_breaks (a ++ b) = line_breaks a + line_breaks b.
Proof. unfold line_breaks. apply count_occ_app. Qed.

Lemma no_break (s : pystr) :
  forallb (fun c => negb (c =? 10)%N) s = true -> line_breaks s = 0.
Proof.
  intros H. unfold line_breaks. apply count_occ_not_In. intros Hin.
  rewrite forallb_forall in H. specialize (H _ Hin). discriminate.
Qed.

Lemma hexdigit_not_break (d : N) : negb (hexdigit d =? 10)%N = true.
Proof.
  unfold hexdigit. destruct (d <? 10)%N.
  - destruct (N.eqb_spec (48 + d) 10); [lia | reflexivity].
  - destruct (N.eqb_spec (87 + d) 10); [lia | reflexivity].
Qed.

Lemma u_escape_no_break (n : N) : line_breaks (u_escape n) = 0.
Proof.
  apply no_break. unfold u_escape. cbn [forallb].
  rewrite !hexdigit_not_break. reflexivity.
Qed.

Lemma escape_char_no_break (c : char) : line_breaks (escape_char c) = 0.
Proof.
  unfold escape_char.
  destruct (plain c) eqn:Hp.
  { apply no_break. cbn [forallb]. unfold plain in Hp.
    destruct (N.eqb_spec c 10); [subst; discriminate | reflexivity]. }
  repeat match goal with
         | |- context [if ?b then _ else _] =>
           destruct b; [first [reflexivity | apply u_escape_no_break]|]
         end.
  now rewrite line_breaks_app, !u_escape_no_break.
Qed.

Lemma encode_no_break (s : pystr) :
  line_breaks (py_encode_basestring_ascii s) = 0.
Proof.
  unfold py_encode_basestring_ascii. rewrite !line_breaks_app.
  replace (line_breaks dq) with 0 by reflexivity.
  induction s as [|c s IH]; [reflexivity|].
  cbn [flat_map]. rewrite line_breaks_app, escape_char_no_break.
  simpl in *. lia.
Qed.

Lemma join_line_breaks (sep : pystr) (xs : list pystr) :
  Forall (fun x => line_breaks x = 0) xs ->
  line_breaks (join sep xs) = (length xs - 1) * line_breaks sep.
Proof.
  intros H. induction H as [|x xs Hx Hxs IH]; [reflexivity|].
  destruct xs as [|y ys]; [simpl; lia|].
  change (join sep (x :: y :: ys)) with (x ++ sep ++ join sep (y :: ys)).
  rewrite !line_breaks_app, Hx, IH. simpl. lia.
Qed.

Lemma member_no_break (item : Rnc) :
  match model_dump item with
  | VDict d =>
    Forall (fun x => line_breaks x = 0)
           (map (fun kv => member (fst kv) (snd kv)) d)
  | _ => False
  end.
Proof.
  cbn [model_dump map fst snd].
  repeat constructor; unfold member; rewrite !line_breaks_app, encode_no_break;
    cbn [_iterencode]; try rewrite encode_no_break; try reflexivity.
  destruct (CONCLUSAO item); cbn [_iterencode];
    [now rewrite encode_no_break | reflexivity].
Qed.

(** A record takes fourteen lines of the block: thirteen line feeds
    inside its text. *)
Lemma entry_line_breaks (item : Rnc) : line_breaks (entry item) = 13.
Proof.
  rewrite entry_members. pose proof (member_no_break item) as H.
  assert (Hlen : match model_dump item with
                 | VDict d => length d = 12
                 | _ => False
                 end) by reflexivity.
  destruct (model_dump item) as [| | | | |d]; try contradiction.
  rewrite !line_breaks_app, (join_line_breaks _ _ H), length_map, Hlen.
  reflexivity.
Qed.

Lemma entries_line_breaks (sep : pystr) (rs : list Rnc) :
  line_breaks (join sep (map entry rs))
  = 13 * length rs + (length rs - 1) * line_breaks sep.
Proof.
  induction rs as [|r rs IH]; [reflexivity|].
  destruct rs as [|r' rs].
  - cbn [map join length]. rewrite entry_line_breaks. lia.
  - change (join sep (map entry (r :: r' :: rs)))
      with (entry r ++ sep ++ join sep (map entry (r' :: rs))).
    rewrite !line_breaks_app, entry_line_breaks, IH. simpl. lia.
Qed.

End LineBreakFacts.

(** X13: the text of a record in the data block has exactly fourteen
    lines whatever its values hold, line feeds included, and the block of
    n records has 14 n + 2 lines: a value cannot add a line to the block
    or close the list. *)
Theorem X13_block_layout_is_fixed :
  (forall s : pystr, line_breaks (py_encode_basestring_ascii s) = 0)
  /\ (forall item : Rnc, line_breaks (entry item) = 13)
  /\ (forall (r : Rnc) (rs : list Rnc),
         line_breaks (texto_dados {| dados_rnc := r :: rs |})
         = 14 * length (r :: rs) + 1).
Proof.
  split; [exact encode_no_break|]. split; [exact entry_line_breaks|].
  intros r rs. rewrite texto_dados_entries.
  rewrite !line_breaks_app, entries_line_breaks.
  replace (line_breaks (py "," ++ nl ++ py "  ")) with 1 by reflexivity.
  replace (line_breaks (py "[")) with 0 by reflexivity.
  replace (line_breaks (py "]")) with 0 by reflexivity.
  replace (line_breaks (py "  ")) with 0 by reflexivity.
  replace (line_breaks nl) with 1 by reflexivity.
  cbn [length]. lia.
Qed.

(** X14: the encoding of a string as a JSON string loses nothing on
    texts of Unicode scalar values: two such texts with the same encoding
    are equal.  It is not so for all Python strings: a high surrogate
    followed by a low one is written like the character they spell. *)
Theorem X14_string_encoding_injective :
  (forall s1 s2 : pystr,
      forallb scalar s1 = true -> forallb scalar s2 = true ->
      py_encode_basestring_ascii s1 = py_encode_basestring_ascii s2 ->
      s1 = s2)
  /\ py_encode_basestring_ascii [55357; 56832]%N
     = py_encode_basestring_ascii [128512%N].
Proof.
  split.
  - intros s1 s2 H1 H2 E.
    assert (E' : py_encode_basestring_ascii s1 ++ []
                 = py_encode_basestring_ascii s2 ++ [])
      by (now rewrite !app_nil_r).
    exact (proj1 (encode_prefix_free s1 s2 [] [] H1 H2 E')).
  - vm_compute. reflexivity.
Qed.

Lemma X14_string_encoding_injective_witness :
  forallb scalar (py "Peça") = true
  /\ (py_encode_basestring_ascii (py "Peça")
      = py_encode_basestring_ascii (py "Peça") -> py "Peça" = py "Peça").
Proof.
  assert (H : forallb scalar (py "Peça") = true) by (vm_compute; reflexivity).
  split; [exact H|].
  exact (proj1 X14_string_encoding_injective _ _ H H).
Defined.

(* ================================================================== *)
(** * The first hosted handler *)

Section OldV1Facts.

Variable create : Main.create_args -> result pystr Main.completion.
Variable json_loads : pystr -> result pystr value.

Lemma OldV1_analise_rnc_empty (payload : RequisicaoAnalista) :
  dados_rnc payload = [] ->
  OldV1.analise_rnc create json_loads payload
  = ([LogInfo (py "Sistema estável: 0 RNCs processadas.")],
     Returned Main.stable_result).
Proof. unfold OldV1.analise_rnc. intros ->. reflexivity. Qed.

Lemma OldV1_analise_rnc_nonempty (payload : RequisicaoAnalista) :
  dados_rnc payload <> [] ->
  OldV1.analise_rnc create json_loads payload
  = let call := RemoteCall (OldV1.request payload) in
    let failed e :=
        ([call; LogError (py "Erro: " ++ e)], HTTPException 500 e) in
    match create (OldV1.request payload) with
    | Err e => failed e
    | Ok completion =>
      match Main.choices completion with
      | [] => failed index_message
      | None :: _ => failed loads_None_message
      | Some text :: _ =>
        match json_loads text with
        | Ok body => ([call], Returned body)
        | Err e => failed e
        end
      end
    end.
Proof.
  unfold OldV1.analise_rnc. intros H.
  destruct (dados_rnc payload) as [|r rs] eqn:E; [contradiction|].
  cbn [length Nat.eqb orb]. unfold bind, remote, Main.loads_first_choice.
  destruct (create (OldV1.request payload)) as [c|e]; [|reflexivity].
  destruct (Main.choices c) as [|[text|] more]; reflexivity.
Qed.

Lemma OldV1_remote_calls (payload : RequisicaoAnalista) :
  dados_rnc payload <> [] ->
  remote_calls (fst (OldV1.analise_rnc create json_loads payload))
  = [OldV1.request payload].
Proof.
  intros H. rewrite OldV1_analise_rnc_nonempty by exact H. cbv zeta.
  destruct (create (OldV1.request payload)) as [c|e]; [|reflexivity].
  destruct (Main.choices c) as [|[text|] more]; try reflexivity.
  destruct (json_loads text); reflexivity.
Qed.

End OldV1Facts.

(** X15: in the first hosted handler too, a non-empty batch of n records
    leads to one call whose user message holds the data block on a line
    of its own and, in the statistics object of the schema, the total n;
    the schema names the three risk values. *)
Theorem X15_first_handler_prompt :
  forall (r : Rnc) (rs : list Rnc) create json_loads,
    let payload := {| dados_rnc := r :: rs |} in
    let n := length (r :: rs) in
    let user := OldV1.user_content n (texto_dados payload) in
    remote_calls (fst (OldV1.analise_rnc create json_loads payload))
    = [OldV1.request payload]
    /\ map content (Main.messages (OldV1.request payload))
       = [OldV1.system_content; user]
    /\ Infix (py "                    "
                ++ py "Analise fielmente estes dados de RNC:" ++ nl
                ++ py "                    " ++ texto_dados payload ++ nl)
             user
    /\ Infix (py "                    " ++ py "  " ++ dq
                ++ py "estatisticas" ++ dq ++ py ": {" ++ nl
                ++ py "                    " ++ py "     " ++ dq
                ++ py "total_analisado" ++ dq ++ py ": " ++ str_nat n
                ++ py "," ++ nl) user
    /\ Infix (py "                    " ++ py "  " ++ dq
                ++ py "analise_de_risco" ++ dq ++ py ": " ++ dq
                ++ py "baixo|medio|alto" ++ dq ++ py "," ++ nl) user
    /\ join (py "|") risk_values = py "baixo|medio|alto"
    /\ int_of_str (str_nat n) = Some n.
Proof.
  intros r rs create json_loads payload n user.
  split; [apply OldV1_remote_calls; discriminate|].
  split; [reflexivity|].
  split.
  { eapply Infix_trans;
      [|apply (nth_Infix_concat2
                 (OldV1.user_lines n (texto_dados payload)) 1);
        reflexivity].
    replace (py "                    ") with OldV1.ind20
      by (vm_compute; reflexivity).
    unfold OldV1.line. cbn [concat]. rewrite ?app_nil_r, <- ?app_assoc.
    apply Infix_refl. }
  split.
  { eapply Infix_trans;
      [|apply (nth_Infix_concat2
                 (OldV1.user_lines n (texto_dados payload)) 18);
        reflexivity].
    replace (py "                    ") with OldV1.ind20
      by (vm_compute; reflexivity).
    unfold OldV1.line, q. cbn [concat]. rewrite ?app_nil_r, <- ?app_assoc.
    apply Infix_refl. }
  split.
  { eapply Infix_trans;
      [|apply (nth_Infix_concat
                 (OldV1.user_lines n (texto_dados payload)) 16);
        reflexivity].
    replace (py "                    ") with OldV1.ind20
      by (vm_compute; reflexivity).
    unfold OldV1.line, q. cbn [concat]. rewrite ?app_nil_r, <- ?app_assoc.
    apply Infix_refl. }
  split; [vm_compute; reflexivity|].
  apply int_of_str_str_nat.
Qed.

(** X16: the first hosted handler and the current one differ in the
    messages they send and in nothing else: the other arguments of the
    call are the same, the answer to an empty batch is the same, and when
    the service answers the two requests alike the two handlers answer
    alike. *)
Theorem X16_first_handler_same_outcomes :
  forall (payload : RequisicaoAnalista) create json_loads,
    Main.model (OldV1.request payload) = Main.model (Main.request payload)
    /\ Main.temperature (OldV1.request payload)
       = Main.temperature (Main.request payload)
    /\ Main.response_format (OldV1.request payload)
       = Main.response_format (Main.request payload)
    /\ (dados_rnc payload = [] ->
        OldV1.analise_rnc create json_loads payload
        = Main.analise_rnc create json_loads payload)
    /\ (create (OldV1.request payload) = create (Main.request payload) ->
        snd (OldV1.analise_rnc create json_loads payload)
        = snd (Main.analise_rnc create json_loads payload)).
Proof.
  intros payload create json_loads.
  split; [exact (eq_refl (py "llama-3.3-70b-versatile"))|].
  split; [exact (eq_refl (FloatLit 2 10))|].
  split; [exact (eq_refl (VDict [(py "type", VStr (py "json_object"))]))|].
  split.
  - intros H. now rewrite OldV1_analise_rnc_empty, Main_analise_rnc_empty.
  - intros H. destruct (dados_rnc payload) as [|r rs] eqn:E.
    + now rewrite OldV1_analise_rnc_empty, Main_analise_rnc_empty.
    + rewrite OldV1_analise_rnc_nonempty, Main_analise_rnc_nonempty
        by congruence.
      cbv zeta. rewrite H.
      destruct (create (Main.request payload)) as [c|e]; [|reflexivity].
      destruct (Main.choices c) as [|[text|] more]; try reflexivity.
      destruct (json_loads text); reflexivity.
Qed.

Lemma X16_first_handler_same_outcomes_witness :
  Samples.create_text Samples.not_json (OldV1.request Samples.three)
  = Samples.create_text Samples.not_json (Main.request Samples.three)
  /\ snd (OldV1.analise_rnc (Samples.create_text Samples.not_json)
            Samples.loads Samples.three)
     = snd (Main.analise_rnc (Samples.create_text Samples.not_json)
              Samples.loads Samples.three).
Proof.
  split; [reflexivity|].
  exact (proj2 (proj2 (proj2 (proj2 (X16_first_handler_same_outcomes
                                       Samples.three
                                       (Samples.create_text Samples.not_json)
                                       Samples.loads))))
               eq_refl).
Defined.

(* ================================================================== *)
(** * More on trimming and on the reading of the completion *)

Section StripMoreFacts.

Lemma lstrip_app_blank (l x : pystr) :
  forallb isspace l = true -> lstrip (l ++ x) = lstrip x.
Proof.
  induction l as [|c l IH]; simpl; [reflexivity|].
  intros H. apply andb_true_iff in H as [-> H]. exact (IH H).
Qed.

Lemma lstrip_cons_keep (c : char) (x : pystr) :
  isspace c = false -> lstrip (c :: x) = c :: x.
Proof. simpl. now intros ->. Qed.

Lemma forallb_of_rev (A : Type) (f : A -> bool) (l : list A) :
  forallb f (rev l) = forallb f l.
Proof.
  induction l as [|a l IH]; simpl; [reflexivity|].
  rewrite forallb_app, IH. simpl. rewrite andb_true_r. apply andb_comm.
Qed.

End StripMoreFacts.

(** X17: strip removes the blanks before the first and after the last
    character that is not a blank, and keeps all that lies between them,
    blanks included. *)
Theorem X17_strip_keeps_the_inside :
  forall (l mid r : pystr) (c1 c2 : char),
    forallb isspace l = true -> forallb isspace r = true ->
    isspace c1 = false -> isspace c2 = false ->
    strip (l ++ c1 :: mid ++ c2 :: r) = c1 :: mid ++ [c2]
    /\ strip (l ++ c1 :: r) = [c1].
Proof.
  intros l mid r c1 c2 Hl Hr H1 H2.
  assert (Hrev : forallb isspace (rev r) = true) by now rewrite forallb_of_rev.
  unfold strip, rstrip. split.
  - rewrite lstrip_app_blank, lstrip_cons_keep by assumption.
    replace (rev (c1 :: mid ++ c2 :: r))
      with (rev r ++ c2 :: rev (c1 :: mid)).
    + rewrite lstrip_app_blank, lstrip_cons_keep by assumption.
      change (c2 :: rev (c1 :: mid)) with (rev ((c1 :: mid) ++ [c2]))
        || rewrite <- rev_unit.
      rewrite rev_involutive. reflexivity.
    + change (c1 :: mid ++ c2 :: r) with ((c1 :: mid) ++ c2 :: r).
      rewrite rev_app_distr. simpl. now rewrite <- app_assoc.
  - rewrite lstrip_app_blank, lstrip_cons_keep by assumption.
    simpl rev. rewrite lstrip_app_blank by assumption.
    now rewrite lstrip_cons_keep.
Qed.

Lemma X17_strip_keeps_the_inside_witness :
  forallb isspace (py "  ") = true
  /\ forallb isspace [9; 10]%N = true
  /\ isspace 97%N = false
  /\ strip (py "  " ++ 97%N :: py " b  " ++ 99%N :: [9; 10]%N)
     = 97%N :: py " b  " ++ [99%N].
Proof.
  assert (Hl : forallb isspace (py "  ") = true) by (vm_compute; reflexivity).
  assert (Hr : forallb isspace [9; 10]%N = true) by (vm_compute; reflexivity).
  assert (H1 : isspace 97%N = false) by (vm_compute; reflexivity).
  assert (H2 : isspace 99%N = false) by (vm_compute; reflexivity).
  split; [exact Hl|]. split; [exact Hr|]. split; [exact H1|].
  exact (proj1 (X17_strip_keeps_the_inside _ (py " b  ") _ _ _ Hl Hr H1 H2)).
Defined.

(** X18: of a completion the hosted handler reads the first choice only.
    With no choice at all, or with a first choice that has no content,
    the request fails with a 500 carrying the text of the IndexError or
    of the TypeError; the choices after the first never matter. *)
Theorem X18_only_first_choice_is_read :
  forall (r : Rnc) (rs : list Rnc) create json_loads,
    let payload := {| dados_rnc := r :: rs |} in
    (create (Main.request payload) = Ok {| Main.choices := [] |} ->
     snd (Main.analise_rnc create json_loads payload)
     = HTTPException 500 (py "list index out of range"))
    /\ (forall more,
           create (Main.request payload)
           = Ok {| Main.choices := None :: more |} ->
           snd (Main.analise_rnc create json_loads payload)
           = HTTPException 500
               (py "the JSON object must be str, bytes or bytearray, not NoneType"))
    /\ (forall create' first more more',
           create (Main.request payload)
           = Ok {| Main.choices := first :: more |} ->
           create' (Main.request payload)
           = Ok {| Main.choices := first :: more' |} ->
           Main.analise_rnc create json_loads payload
           = Main.analise_rnc create' json_loads payload).
Proof.
  intros r rs create json_loads payload.
  assert (Hne : dados_rnc payload <> []) by discriminate.
  split; [|split].
  - intros H. rewrite Main_analise_rnc_nonempty by exact Hne. cbv zeta.
    now rewrite H.
  - intros more H. rewrite Main_analise_rnc_nonempty by exact Hne. cbv zeta.
    now rewrite H.
  - intros create' first more more' H H'.
    rewrite !Main_analise_rnc_nonempty by exact Hne. cbv zeta.
    rewrite H, H'. destruct first; reflexivity.
Qed.

Lemma X18_only_first_choice_is_read_witness :
  (fun _ : Main.create_args =>
     @Ok pystr Main.completion {| Main.choices := [] |})
    (Main.request Samples.one_registrada)
  = Ok {| Main.choices := [] |}
  /\ snd (Main.analise_rnc
            (fun _ => Ok {| Main.choices := [] |}) Samples.loads
            Samples.one_registrada)
     = HTTPException 500 (py "list index out of range").
Proof.
  split; [reflexivity|].
  exact (proj1 (X18_only_first_choice_is_read
                  (Samples.rnc (py "7") (py "Registrada")) []
                  (fun _ => Ok {| Main.choices := [] |}) Samples.loads)
               eq_refl).
Defined.
